(** * server.js: the CRUD routes of the machine-rental API

    A shallow embedding of [src/server.js].  Every [app.METHOD(path, handler)]
    call of the source is one entry of [rutas], in registration order; a
    request is served by the first entry that matches it, the way Express
    walks its router stack.  The source repeats four handler shapes (create,
    read, update, delete) for every collection; [crear], [obtener],
    [actualizar] and [eliminar] are those shapes, and each entry of [rutas]
    records what its copy fills in: the collection name, the destructured
    field names, the presence test applied to each field, and the literal
    messages.  The handlers of the user resource and the create and update
    handlers with a test of their own are also transcribed line by line
    ([post_usuarios], [post_resenas], [put_resenas_id], ...) and shown to be
    the entries of [rutas] that serve them.

    The document store ([db], from [./firebase]) is not in [src/]; it is
    modelled in [Module Firestore] from its description in the specification
    and from the calls the handlers make on it. *)

From Stdlib Require Import ZArith QArith List Ascii String.
From stdpp Require Import gmap strings list fin_maps.

Local Open Scope string_scope.
Local Open Scope Z_scope.

(** ** Values *)

(** What [bodyParser.json()] leaves in [req.body]: JSON values.  A number is
    carried by its exact value ([JSON.parse] yields finite doubles, which are
    rationals).  A property that is absent reads as [undefined] in JavaScript;
    [option json] is a value that may be [undefined] ([None]). *)
#[local] Unset Elimination Schemes.
Inductive json : Type :=
| JNull
| JBool (b : bool)
| JNum (q : Q)
| JStr (s : string)
| JArr (xs : list json)
| JObj (kvs : list (string * json)).
#[local] Set Elimination Schemes.

(** An object literal such as [{ nombre, correo, rol }]: its own keys, each
    bound to a value that may be [undefined]. *)
Abbreviation JsObject := (gmap string (option json)).
(** A JSON object: no [undefined] inside. *)
Abbreviation Doc := (gmap string json).

(** [!!x] *)
Definition truthy (x : option json) : bool :=
  match x with
  | None => false
  | Some JNull => false
  | Some (JBool b) => b
  | Some (JNum q) => negb (Qeq_bool q 0)
  | Some (JStr s) => negb (String.eqb s "")
  | Some (JArr _) => true
  | Some (JObj _) => true
  end.

(** [x === undefined], [typeof x === "undefined"] *)
Definition isUndefined (x : option json) : bool :=
  match x with None => true | Some _ => false end.

(** [JSON.stringify] of an object literal (what [res.json] sends): properties
    whose value is [undefined] are left out. *)
Definition stringify (o : JsObject) : Doc := omap id o.

(** [{ f1, f2, ... }] after [const { f1, f2, ... } = req.body]: one key per
    field, bound to whatever the body holds there. *)
Definition shorthand (campos : list string) (body : Doc) : JsObject :=
  foldr (λ f o, <[f := body !! f]> o) ∅ campos.

(** ** Relational comparison against a number

    [x < n] and [x > n] with [n] a number compare [ToNumber(x)] with [n];
    [NaN] ([None]) makes both false. *)
Section Comparison.
(** The numeric-string grammar of ECMAScript ([StringToNumber]) is not
    reproduced here; it is a parameter of the development. *)
Variable StringToNumber : string → option Q.

(** [ToNumber(String(v))] for a value [v] that sits in an array: [join]
    prints [null] as the empty string, which reads as [0]; a number prints
    and reads back as itself; two or more elements leave a comma, which is
    not a number. *)
Fixpoint ToNumber_joined (v : json) : option Q :=
  match v with
  | JNull => Some 0%Q
  | JBool _ => None
  | JNum q => Some q
  | JStr s => StringToNumber s
  | JArr xs =>
      match xs with
      | [] => Some 0%Q
      | [x] => ToNumber_joined x
      | _ :: _ :: _ => None
      end
  | JObj _ => None
  end.

Definition ToNumber (x : option json) : option Q :=
  match x with
  | None => None
  | Some JNull => Some 0%Q
  | Some (JBool b) => Some (if b then 1%Q else 0%Q)
  | Some (JNum q) => Some q
  | Some (JStr s) => StringToNumber s
  | Some (JArr xs) => ToNumber_joined (JArr xs)
  | Some (JObj _) => None
  end.

Definition Qlt_bool (a b : Q) : bool := negb (Qle_bool b a).

(** [x < n] *)
Definition js_lt (x : option json) (n : Q) : bool :=
  match ToNumber x with Some q => Qlt_bool q n | None => false end.
(** [x > n] *)
Definition js_gt (x : option json) (n : Q) : bool :=
  match ToNumber x with Some q => Qlt_bool n q | None => false end.

(** [calificacion < 1 || calificacion > 5] *)
Definition fueraDeRango (calificacion : option json) : bool :=
  js_lt calificacion 1 || js_gt calificacion 5.
End Comparison.

(** ** The document store

    The store client [db] is exported by [./firebase], which is not among
    the sources.  The specification describes it as a per-collection
    key-value database of JSON-like documents addressed by a store-assigned
    identifier, with get-by-id, insert, merge-update and delete as atomic
    single-document operations; a merge update changes only the named fields
    and leaves all other stored fields untouched.  The calls [server.js]
    makes are those of the Firestore client: [collection(c).add(o)],
    [collection(c).doc(id).get()], [.update(o)] and [.delete()].

    Two things the specification leaves to the client are parameters here:
    - the identifier [add] assigns is drawn by the client per call; it comes
      with the environment of the request ([autoId]), and an insertion under
      an identifier that is already taken fails;
    - a write whose object holds an [undefined] property is either refused
      (the client throws) or carried out without that property, according
      to the client setting [ignoreUndefinedProperties].
    Connectivity failures are not modelled, and every JSON value is taken to
    be storable: an operation fails only for the reasons above. *)

(** Modelled from the spec: the content of the document store, missing with
    [./firebase]: the documents of every collection, keyed by collection
    name and identifier. *)
Abbreviation Store := (gmap (string * string) Doc).

Module Firestore.

(** Modelled from the spec: get-by-id of the store client, missing with
    [./firebase].  [doc.exists] is [is_Some (get s c id)] and [doc.data()]
    is the content. *)
Definition get (s : Store) (c id : string) : option Doc := s !! (c, id).

(** Modelled from the spec: whether an object is free of [undefined], the
    condition under which the store client, missing with [./firebase],
    accepts it as document data. *)
Definition sinUndefined (o : JsObject) : bool :=
  bool_decide (map_Forall (λ _ v, is_Some v) o).

(** Modelled from the spec: the fields a write of the store client, missing
    with [./firebase], carries; [None] when the client throws. *)
Definition fields (ignoreUndefinedProperties : bool) (o : JsObject) : option Doc :=
  if ignoreUndefinedProperties || sinUndefined o then Some (stringify o) else None.

(** Modelled from the spec: insert of the store client, missing with
    [./firebase]: [collection(c).add(o)] gives the new store and
    [docRef.id]. *)
Definition add (ignoreUndefinedProperties : bool) (s : Store) (c : string)
    (o : JsObject) (autoId : string) : option (Store * string) :=
  match fields ignoreUndefinedProperties o with
  | None => None
  | Some d =>
      match get s c autoId with
      | Some _ => None
      | None => Some (<[(c, autoId) := d]> s, autoId)
      end
  end.

(** Modelled from the spec: merge-update of the store client, missing with
    [./firebase]: in [doc(id).update(o)] the named fields replace the stored
    ones and the others stay; it fails on a document that does not exist. *)
Definition update (ignoreUndefinedProperties : bool) (s : Store) (c id : string)
    (o : JsObject) : option Store :=
  match fields ignoreUndefinedProperties o with
  | None => None
  | Some d =>
      match get s c id with
      | None => None
      | Some old => Some (<[(c, id) := d ∪ old]> s)
      end
  end.

(** Modelled from the spec: delete of the store client, missing with
    [./firebase]: [doc(id).delete()]. *)
Definition delete (s : Store) (c id : string) : Store := base.delete (c, id) s.

End Firestore.

(** ** Requests and responses *)

Inductive Metodo := GET | POST | PUT | DELETE.

Definition Metodo_eqb (a b : Metodo) : bool :=
  match a, b with
  | GET, GET | POST, POST | PUT, PUT | DELETE, DELETE => true
  | _, _ => false
  end.

(** A request, after Express has parsed it: the method, the first segment
    of the path ([recurso], empty for the root path), [req.params.id] when
    the path has a second segment, and [req.body], the JSON object that
    [bodyParser.json()] read. *)
Record Request := mkReq {
  metodo : Metodo;
  recurso : string;
  params_id : option string;
  body : Doc
}.

Inductive Cuerpo :=
| json_ (d : Doc)          (* res.json(d) *)
| send (texto : string).   (* res.send(texto) *)

Record Response := mkRes { status : Z; cuerpo : Cuerpo }.

(** [{ mensaje: m }] *)
Definition mensaje (m : string) : Cuerpo := json_ {[ "mensaje" := JStr m ]}.

(** What a handler reads from outside the request and the store:
    [new Date().toISOString()] and the identifier the store client draws. *)
Record Entorno := mkEnv { now : string; autoId : string }.

(** The response of every [catch] block. *)
Definition errorInterno : Response :=
  mkRes 500 (mensaje "Error interno del servidor.").

(** ** The handlers *)

(** The presence test a create handler applies to a destructured field:
    [!x] for most, [x === undefined] / [typeof x === "undefined"] for the
    coordinates of a location and the comment of a review. *)
Inductive Presencia := Truthy | Definido.

#[global] Instance Presencia_eq_dec : EqDecision Presencia.
Proof. solve_decision. Defined.

Definition falta (p : Presencia) (x : option json) : bool :=
  match p with
  | Truthy => negb (truthy x)
  | Definido => isUndefined x
  end.

(** One registered handler.  The arguments are what differs between the
    copies of each shape in the source. *)
Inductive Handler :=
| Raiz
| Crear (coleccion : string) (campos : list (string * Presencia))
        (rango fechaRegistro : bool) (faltan : string)
| Obtener (coleccion noEncontrado : string)
| Actualizar (coleccion : string) (campos : list string) (rango : bool)
             (noEncontrado exito : string)
| Eliminar (coleccion noEncontrado exito : string).

Definition fueraDeRangoMsg : string := "La calificación debe estar entre 1 y 5.".

Section Handlers.
Variable StringToNumber : string → option Q.
Variable ignoreUndefinedProperties : bool.

(** [app.get("/", ...)] *)
Definition raiz (s : Store) : Store * Response :=
  (s, mkRes 200 (send "Bienvenido a la API de la rentadora de máquinas")).

(** The object a create handler stores: [{ f1, ..., fn }], and for users
    [{ nombre, correo, rol, fechaRegistro: new Date().toISOString() }]. *)
Definition objetoNuevo (campos : list string) (fechaRegistro : bool)
    (env : Entorno) (body : Doc) : JsObject :=
  if fechaRegistro
  then <["fechaRegistro" := Some (JStr (now env))]> (shorthand campos body)
  else shorthand campos body.

(** [app.post("/<coleccion>", ...)]:
    destructure the fields, answer 400 when one fails its presence test
    (and, for reviews, when the rating is out of range), otherwise build
    the new object, [add] it and answer 201 with [{ id: docRef.id, ...nuevo }]. *)
Definition crear (coleccion : string) (campos : list (string * Presencia))
    (rango fechaRegistro : bool) (faltan : string)
    (env : Entorno) (req : Request) (s : Store) : Store * Response :=
  if existsb (λ fp, falta fp.2 (body req !! fp.1)) campos then
    (s, mkRes 400 (mensaje faltan))
  else if rango && fueraDeRango StringToNumber (body req !! "calificacion") then
    (s, mkRes 400 (mensaje fueraDeRangoMsg))
  else
    let nuevo := objetoNuevo campos.*1 fechaRegistro env (body req) in
    match Firestore.add ignoreUndefinedProperties s coleccion nuevo (autoId env) with
    | Some (s', docRef_id) =>
        (s', mkRes 201 (json_ (stringify (nuevo ∪ {[ "id" := Some (JStr docRef_id) ]}))))
    | None => (s, errorInterno)
    end.

(** [app.get("/<coleccion>/:id", ...)].  A route with [/:id] is only entered
    with [req.params.id] bound; were it not, [doc(undefined)] would throw
    into the [catch] block.  The same holds for update and delete. *)
Definition obtener (coleccion noEncontrado : string)
    (req : Request) (s : Store) : Store * Response :=
  match params_id req with
  | None => (s, errorInterno)
  | Some id =>
      match Firestore.get s coleccion id with
      | None => (s, mkRes 404 (mensaje noEncontrado))
      | Some data => (s, mkRes 200 (json_ (data ∪ {[ "id" := JStr id ]})))
      end
  end.

(** [app.put("/<coleccion>/:id", ...)]: existence first, then (reviews
    only) the rating range, then [update] with the destructured fields. *)
Definition actualizar (coleccion : string) (campos : list string) (rango : bool)
    (noEncontrado exito : string)
    (req : Request) (s : Store) : Store * Response :=
  match params_id req with
  | None => (s, errorInterno)
  | Some id =>
      match Firestore.get s coleccion id with
      | None => (s, mkRes 404 (mensaje noEncontrado))
      | Some _ =>
          if rango && fueraDeRango StringToNumber (body req !! "calificacion") then
            (s, mkRes 400 (mensaje fueraDeRangoMsg))
          else
            match Firestore.update ignoreUndefinedProperties s coleccion id
                    (shorthand campos (body req)) with
            | Some s' => (s', mkRes 200 (mensaje exito))
            | None => (s, errorInterno)
            end
      end
  end.

(** [app.delete("/<coleccion>/:id", ...)] *)
Definition eliminar (coleccion noEncontrado exito : string)
    (req : Request) (s : Store) : Store * Response :=
  match params_id req with
  | None => (s, errorInterno)
  | Some id =>
      match Firestore.get s coleccion id with
      | None => (s, mkRes 404 (mensaje noEncontrado))
      | Some _ => (Firestore.delete s coleccion id, mkRes 200 (mensaje exito))
      end
  end.

Definition ejecutar (h : Handler) (env : Entorno) (req : Request) (s : Store)
    : Store * Response :=
  match h with
  | Raiz => raiz s
  | Crear c campos rango fr faltan => crear c campos rango fr faltan env req s
  | Obtener c ne => obtener c ne req s
  | Actualizar c campos rango ne ok => actualizar c campos rango ne ok req s
  | Eliminar c ne ok => eliminar c ne ok req s
  end.
End Handlers.

(** ** The routes *)

(** One [app.METHOD(path, handler)] call: the method, the resource name of
    the path, and whether the path ends in [/:id]. *)
Record Ruta := mkRuta {
  r_metodo : Metodo;
  r_recurso : string;
  r_conId : bool;
  r_handler : Handler
}.

Definition app_post (r : string) (h : Handler) : Ruta := mkRuta POST r false h.
Definition app_get (r : string) (h : Handler) : Ruta := mkRuta GET r false h.
Definition app_get_id (r : string) (h : Handler) : Ruta := mkRuta GET r true h.
Definition app_put_id (r : string) (h : Handler) : Ruta := mkRuta PUT r true h.
Definition app_delete_id (r : string) (h : Handler) : Ruta := mkRuta DELETE r true h.

(** The router stack of [server.js], in the order of the source (the line of
    each call is given on the right).  [/pagos] is registered twice, with two
    different field sets.  What is mounted before these routes
    ([bodyParser.json()] and the documentation pages of [./swagger]) answers
    none of their paths and is left out. *)
Definition rutas : list Ruta := [
  app_get "" Raiz;                                                        (* 13 *)
  (* Usuarios *)
  app_post "usuarios"                                                     (* 120 *)
    (Crear "usuarios" [("nombre", Truthy); ("correo", Truthy); ("rol", Truthy)]
       false true "Faltan datos obligatorios: nombre, correo y rol.");
  app_get_id "usuarios" (Obtener "usuarios" "Usuario no encontrado.");    (* 155 *)
  app_put_id "usuarios"                                                   (* 196 *)
    (Actualizar "usuarios" ["nombre"; "correo"; "rol"] false
       "Usuario no encontrado." "Usuario actualizado con éxito");
  app_delete_id "usuarios"                                                (* 235 *)
    (Eliminar "usuarios" "Usuario no encontrado." "Usuario eliminado con éxito");
  (* Máquinas *)
  app_post "maquinas"                                                     (* 272 *)
    (Crear "maquinas"
       [("nombre", Truthy); ("descripcion", Truthy); ("precio", Truthy);
        ("distribuidor", Truthy)]
       false false
       "Faltan datos obligatorios: nombre, descripción, precio y distribuidor.");
  app_get_id "maquinas" (Obtener "maquinas" "Máquina no encontrada.");    (* 307 *)
  app_put_id "maquinas"                                                   (* 348 *)
    (Actualizar "maquinas" ["nombre"; "descripcion"; "precio"; "distribuidor"] false
       "Máquina no encontrada." "Máquina actualizada con éxito");
  app_delete_id "maquinas"                                                (* 387 *)
    (Eliminar "maquinas" "Máquina no encontrada." "Máquina eliminada con éxito");
  (* Alquileres *)
  app_post "alquileres"                                                   (* 425 *)
    (Crear "alquileres"
       [("usuario", Truthy); ("maquina", Truthy); ("fecha_inicio", Truthy);
        ("fecha_fin", Truthy); ("estado", Truthy)]
       false false
       "Faltan datos obligatorios: usuario, máquina, fecha_inicio, fecha_fin, estado.");
  app_get_id "alquileres" (Obtener "alquileres" "Alquiler no encontrado."); (* 461 *)
  app_put_id "alquileres"                                                 (* 502 *)
    (Actualizar "alquileres"
       ["usuario"; "maquina"; "fecha_inicio"; "fecha_fin"; "estado"] false
       "Alquiler no encontrado." "Alquiler actualizado con éxito");
  app_delete_id "alquileres"                                              (* 541 *)
    (Eliminar "alquileres" "Alquiler no encontrado." "Alquiler eliminado con éxito");
  (* Pagos, first registration *)
  app_post "pagos"                                                        (* 578 *)
    (Crear "pagos"
       [("alquilerId", Truthy); ("monto", Truthy); ("metodo", Truthy);
        ("fecha_pago", Truthy)]
       false false
       "Faltan datos obligatorios: alquilerId, monto, metodo, fecha_pago.");
  app_get_id "pagos" (Obtener "pagos" "Pago no encontrado.");             (* 614 *)
  app_put_id "pagos"                                                      (* 655 *)
    (Actualizar "pagos" ["alquilerId"; "monto"; "metodo"; "fecha_pago"] false
       "Pago no encontrado." "Pago actualizado con éxito");
  app_delete_id "pagos"                                                   (* 694 *)
    (Eliminar "pagos" "Pago no encontrado." "Pago eliminado con éxito");
  (* Distribuidores *)
  app_post "distribuidores"                                               (* 731 *)
    (Crear "distribuidores"
       [("nombre", Truthy); ("correo", Truthy); ("telefono", Truthy);
        ("direccion", Truthy)]
       false false
       "Faltan datos obligatorios: nombre, correo, telefono, direccion.");
  app_get_id "distribuidores"                                             (* 767 *)
    (Obtener "distribuidores" "Distribuidor no encontrado.");
  app_put_id "distribuidores"                                             (* 808 *)
    (Actualizar "distribuidores" ["nombre"; "correo"; "telefono"; "direccion"] false
       "Distribuidor no encontrado." "Distribuidor actualizado con éxito");
  app_delete_id "distribuidores"                                          (* 847 *)
    (Eliminar "distribuidores" "Distribuidor no encontrado."
       "Distribuidor eliminado con éxito");
  (* Reseñas *)
  app_post "resenas"                                                      (* 884 *)
    (Crear "resenas"
       [("usuarioId", Truthy); ("productoId", Truthy); ("calificacion", Truthy);
        ("comentario", Definido)]
       true false
       "Faltan datos obligatorios: usuarioId, productoId, calificacion, comentario.");
  app_get_id "resenas" (Obtener "resenas" "Reseña no encontrada.");       (* 924 *)
  app_put_id "resenas"                                                    (* 965 *)
    (Actualizar "resenas" ["usuarioId"; "productoId"; "calificacion"; "comentario"] true
       "Reseña no encontrada." "Reseña actualizada con éxito");
  app_delete_id "resenas"                                                 (* 1008 *)
    (Eliminar "resenas" "Reseña no encontrada." "Reseña eliminada con éxito");
  (* Categorías *)
  app_post "categorias"                                                   (* 1042 *)
    (Crear "categorias" [("nombre", Truthy); ("descripcion", Truthy)]
       false false "Faltan datos obligatorios: nombre, descripcion.");
  app_get_id "categorias" (Obtener "categorias" "Categoría no encontrada."); (* 1078 *)
  app_put_id "categorias"                                                 (* 1119 *)
    (Actualizar "categorias" ["nombre"; "descripcion"] false
       "Categoría no encontrada." "Categoría actualizada con éxito");
  app_delete_id "categorias"                                              (* 1158 *)
    (Eliminar "categorias" "Categoría no encontrada." "Categoría eliminada con éxito");
  (* Ubicaciones *)
  app_post "ubicaciones"                                                  (* 1192 *)
    (Crear "ubicaciones"
       [("nombre", Truthy); ("direccion", Truthy); ("latitud", Definido);
        ("longitud", Definido)]
       false false
       "Faltan datos obligatorios: nombre, direccion, latitud, longitud.");
  app_get_id "ubicaciones" (Obtener "ubicaciones" "Ubicación no encontrada."); (* 1228 *)
  app_put_id "ubicaciones"                                                (* 1269 *)
    (Actualizar "ubicaciones" ["nombre"; "direccion"; "latitud"; "longitud"] false
       "Ubicación no encontrada." "Ubicación actualizada con éxito");
  app_delete_id "ubicaciones"                                             (* 1308 *)
    (Eliminar "ubicaciones" "Ubicación no encontrada." "Ubicación eliminada con éxito");
  (* Pagos, second registration *)
  app_post "pagos"                                                        (* 1343 *)
    (Crear "pagos"
       [("usuarioId", Truthy); ("monto", Truthy); ("fecha", Truthy);
        ("metodo", Truthy)]
       false false
       "Faltan datos obligatorios: usuarioId, monto, fecha, metodo.");
  app_get_id "pagos" (Obtener "pagos" "Pago no encontrado.");             (* 1379 *)
  app_put_id "pagos"                                                      (* 1420 *)
    (Actualizar "pagos" ["usuarioId"; "monto"; "fecha"; "metodo"] false
       "Pago no encontrado." "Pago actualizado con éxito");
  app_delete_id "pagos"                                                   (* 1459 *)
    (Eliminar "pagos" "Pago no encontrado." "Pago eliminado con éxito");
  (* Soporte *)
  app_post "soporte"                                                      (* 1494 *)
    (Crear "soporte"
       [("usuarioId", Truthy); ("descripcion", Truthy); ("fecha", Truthy);
        ("estado", Truthy)]
       false false
       "Faltan datos obligatorios: usuarioId, descripcion, fecha, estado.");
  app_get_id "soporte"                                                    (* 1530 *)
    (Obtener "soporte" "Solicitud de soporte no encontrada.");
  app_put_id "soporte"                                                    (* 1571 *)
    (Actualizar "soporte" ["usuarioId"; "descripcion"; "fecha"; "estado"] false
       "Solicitud de soporte no encontrada." "Solicitud actualizada con éxito");
  app_delete_id "soporte"                                                 (* 1610 *)
    (Eliminar "soporte" "Solicitud de soporte no encontrada."
       "Solicitud eliminada con éxito");
  (* Trabajadores *)
  app_post "trabajadores"                                                 (* 1645 *)
    (Crear "trabajadores"
       [("nombre", Truthy); ("puesto", Truthy); ("salario", Truthy);
        ("fechaContratacion", Truthy)]
       false false
       "Faltan datos obligatorios: nombre, puesto, salario, fechaContratacion.");
  app_get_id "trabajadores" (Obtener "trabajadores" "Trabajador no encontrado."); (* 1681 *)
  app_put_id "trabajadores"                                               (* 1722 *)
    (Actualizar "trabajadores" ["nombre"; "puesto"; "salario"; "fechaContratacion"] false
       "Trabajador no encontrado." "Trabajador actualizado con éxito");
  app_delete_id "trabajadores"                                            (* 1761 *)
    (Eliminar "trabajadores" "Trabajador no encontrado."
       "Trabajador eliminado con éxito")
].

(** A route matches a request with its method and resource name, and with an
    identifier exactly when its path ends in [/:id]. *)
Definition coincide (r : Ruta) (req : Request) : bool :=
  Metodo_eqb (r_metodo r) (metodo req)
  && String.eqb (r_recurso r) (recurso req)
  && Bool.eqb (r_conId r) (match params_id req with Some _ => true | None => false end).

(** Express hands the request to the first matching entry of the stack; no
    handler of [server.js] calls [next], so no later entry ever sees it.
    [primera] returns that entry's handler with its position, counted from
    [i]. *)
Fixpoint primera (req : Request) (rs : list Ruta) (i : nat) : option (nat * Handler) :=
  match rs with
  | [] => None
  | r :: rs' => if coincide r req then Some (i, r_handler r) else primera req rs' (S i)
  end.

Definition despachar (req : Request) : option (nat * Handler) := primera req rutas 0.

(** The application as a transition on the store: [None] when no route of
    [server.js] matches (the request is then left to Express). *)
Definition app (StringToNumber : string → option Q) (ignoreUndefinedProperties : bool)
    (env : Entorno) (req : Request) (s : Store) : option (Store * Response) :=
  match despachar req with
  | Some (_, h) => Some (ejecutar StringToNumber ignoreUndefinedProperties h env req s)
  | None => None
  end.

(** ** Handlers, line by line

    The handlers of the user resource, and the create and update handlers
    that test more or otherwise than the others, written out as they stand
    in the source. *)

Section Literal.
Variable StringToNumber : string → option Q.
Variable ignoreUndefinedProperties : bool.

(** [app.post("/usuarios", ...)], lines 120-134. *)
Definition post_usuarios (env : Entorno) (req : Request) (s : Store)
    : Store * Response :=
  let nombre := body req !! "nombre" in
  let correo := body req !! "correo" in
  let rol := body req !! "rol" in
  if negb (truthy nombre) || negb (truthy correo) || negb (truthy rol) then
    (s, mkRes 400 (mensaje "Faltan datos obligatorios: nombre, correo y rol."))
  else
    let nuevoUsuario : JsObject :=
      {[ "nombre" := nombre; "correo" := correo; "rol" := rol;
         "fechaRegistro" := Some (JStr (now env)) ]} in
    match Firestore.add ignoreUndefinedProperties s "usuarios" nuevoUsuario
            (autoId env) with
    | Some (s', docRef_id) =>
        (s', mkRes 201 (json_ (stringify
               (nuevoUsuario ∪ {[ "id" := Some (JStr docRef_id) ]}))))
    | None => (s, errorInterno)
    end.

(** [app.get("/usuarios/:id", ...)], lines 155-169. *)
Definition get_usuarios_id (req : Request) (s : Store) : Store * Response :=
  match params_id req with
  | None => (s, errorInterno)
  | Some id =>
      let doc := Firestore.get s "usuarios" id in
      match doc with
      | None => (s, mkRes 404 (mensaje "Usuario no encontrado."))
      | Some data => (s, mkRes 200 (json_ (data ∪ {[ "id" := JStr id ]})))
      end
  end.

(** [app.put("/usuarios/:id", ...)], lines 196-214. *)
Definition put_usuarios_id (req : Request) (s : Store) : Store * Response :=
  match params_id req with
  | None => (s, errorInterno)
  | Some id =>
      let nombre := body req !! "nombre" in
      let correo := body req !! "correo" in
      let rol := body req !! "rol" in
      let doc := Firestore.get s "usuarios" id in
      match doc with
      | None => (s, mkRes 404 (mensaje "Usuario no encontrado."))
      | Some _ =>
          match Firestore.update ignoreUndefinedProperties s "usuarios" id
                  {[ "nombre" := nombre; "correo" := correo; "rol" := rol ]} with
          | Some s' => (s', mkRes 200 (mensaje "Usuario actualizado con éxito"))
          | None => (s, errorInterno)
          end
      end
  end.

(** [app.delete("/usuarios/:id", ...)], lines 235-252. *)
Definition delete_usuarios_id (req : Request) (s : Store) : Store * Response :=
  match params_id req with
  | None => (s, errorInterno)
  | Some id =>
      let doc := Firestore.get s "usuarios" id in
      match doc with
      | None => (s, mkRes 404 (mensaje "Usuario no encontrado."))
      | Some _ =>
          (Firestore.delete s "usuarios" id,
           mkRes 200 (mensaje "Usuario eliminado con éxito"))
      end
  end.

(** [app.post("/maquinas", ...)], lines 272-286. *)
Definition post_maquinas (env : Entorno) (req : Request) (s : Store)
    : Store * Response :=
  let nombre := body req !! "nombre" in
  let descripcion := body req !! "descripcion" in
  let precio := body req !! "precio" in
  let distribuidor := body req !! "distribuidor" in
  if negb (truthy nombre) || negb (truthy descripcion) || negb (truthy precio)
     || negb (truthy distribuidor) then
    (s, mkRes 400 (mensaje
       "Faltan datos obligatorios: nombre, descripción, precio y distribuidor."))
  else
    let nuevaMaquina : JsObject :=
      {[ "nombre" := nombre; "descripcion" := descripcion; "precio" := precio;
         "distribuidor" := distribuidor ]} in
    match Firestore.add ignoreUndefinedProperties s "maquinas" nuevaMaquina
            (autoId env) with
    | Some (s', docRef_id) =>
        (s', mkRes 201 (json_ (stringify
               (nuevaMaquina ∪ {[ "id" := Some (JStr docRef_id) ]}))))
    | None => (s, errorInterno)
    end.

(** The first [app.post("/pagos", ...)], lines 578-593. *)
Definition post_pagos (env : Entorno) (req : Request) (s : Store)
    : Store * Response :=
  let alquilerId := body req !! "alquilerId" in
  let monto := body req !! "monto" in
  let metodo := body req !! "metodo" in
  let fecha_pago := body req !! "fecha_pago" in
  if negb (truthy alquilerId) || negb (truthy monto) || negb (truthy metodo)
     || negb (truthy fecha_pago) then
    (s, mkRes 400 (mensaje
       "Faltan datos obligatorios: alquilerId, monto, metodo, fecha_pago."))
  else
    let nuevoPago : JsObject :=
      {[ "alquilerId" := alquilerId; "monto" := monto; "metodo" := metodo;
         "fecha_pago" := fecha_pago ]} in
    match Firestore.add ignoreUndefinedProperties s "pagos" nuevoPago (autoId env) with
    | Some (s', docRef_id) =>
        (s', mkRes 201 (json_ (stringify
               (nuevoPago ∪ {[ "id" := Some (JStr docRef_id) ]}))))
    | None => (s, errorInterno)
    end.

(** The second [app.post("/pagos", ...)], lines 1343-1358. *)
Definition post_pagos_2 (env : Entorno) (req : Request) (s : Store)
    : Store * Response :=
  let usuarioId := body req !! "usuarioId" in
  let monto := body req !! "monto" in
  let fecha := body req !! "fecha" in
  let metodo := body req !! "metodo" in
  if negb (truthy usuarioId) || negb (truthy monto) || negb (truthy fecha)
     || negb (truthy metodo) then
    (s, mkRes 400 (mensaje
       "Faltan datos obligatorios: usuarioId, monto, fecha, metodo."))
  else
    let nuevoPago : JsObject :=
      {[ "usuarioId" := usuarioId; "monto" := monto; "fecha" := fecha;
         "metodo" := metodo ]} in
    match Firestore.add ignoreUndefinedProperties s "pagos" nuevoPago (autoId env) with
    | Some (s', docRef_id) =>
        (s', mkRes 201 (json_ (stringify
               (nuevoPago ∪ {[ "id" := Some (JStr docRef_id) ]}))))
    | None => (s, errorInterno)
    end.

(** [app.post("/resenas", ...)], lines 884-903. *)
Definition post_resenas (env : Entorno) (req : Request) (s : Store)
    : Store * Response :=
  let usuarioId := body req !! "usuarioId" in
  let productoId := body req !! "productoId" in
  let calificacion := body req !! "calificacion" in
  let comentario := body req !! "comentario" in
  if negb (truthy usuarioId) || negb (truthy productoId) || negb (truthy calificacion)
     || isUndefined comentario then
    (s, mkRes 400 (mensaje
       "Faltan datos obligatorios: usuarioId, productoId, calificacion, comentario."))
  else if js_lt StringToNumber calificacion 1 || js_gt StringToNumber calificacion 5 then
    (s, mkRes 400 (mensaje "La calificación debe estar entre 1 y 5."))
  else
    let nuevaResena : JsObject :=
      {[ "usuarioId" := usuarioId; "productoId" := productoId;
         "calificacion" := calificacion; "comentario" := comentario ]} in
    match Firestore.add ignoreUndefinedProperties s "resenas" nuevaResena
            (autoId env) with
    | Some (s', docRef_id) =>
        (s', mkRes 201 (json_ (stringify
               (nuevaResena ∪ {[ "id" := Some (JStr docRef_id) ]}))))
    | None => (s, errorInterno)
    end.

(** [app.put("/resenas/:id", ...)], lines 965-987. *)
Definition put_resenas_id (req : Request) (s : Store) : Store * Response :=
  match params_id req with
  | None => (s, errorInterno)
  | Some id =>
      let usuarioId := body req !! "usuarioId" in
      let productoId := body req !! "productoId" in
      let calificacion := body req !! "calificacion" in
      let comentario := body req !! "comentario" in
      let doc := Firestore.get s "resenas" id in
      match doc with
      | None => (s, mkRes 404 (mensaje "Reseña no encontrada."))
      | Some _ =>
          if js_lt StringToNumber calificacion 1 || js_gt StringToNumber calificacion 5
          then (s, mkRes 400 (mensaje "La calificación debe estar entre 1 y 5."))
          else
            match Firestore.update ignoreUndefinedProperties s "resenas" id
                    {[ "usuarioId" := usuarioId; "productoId" := productoId;
                       "calificacion" := calificacion; "comentario" := comentario ]} with
            | Some s' => (s', mkRes 200 (mensaje "Reseña actualizada con éxito"))
            | None => (s, errorInterno)
            end
      end
  end.

(** [app.post("/ubicaciones", ...)], lines 1192-1207. *)
Definition post_ubicaciones (env : Entorno) (req : Request) (s : Store)
    : Store * Response :=
  let nombre := body req !! "nombre" in
  let direccion := body req !! "direccion" in
  let latitud := body req !! "latitud" in
  let longitud := body req !! "longitud" in
  if negb (truthy nombre) || negb (truthy direccion) || isUndefined latitud
     || isUndefined longitud then
    (s, mkRes 400 (mensaje
       "Faltan datos obligatorios: nombre, direccion, latitud, longitud."))
  else
    let nuevaUbicacion : JsObject :=
      {[ "nombre" := nombre; "direccion" := direccion; "latitud" := latitud;
         "longitud" := longitud ]} in
    match Firestore.add ignoreUndefinedProperties s "ubicaciones" nuevaUbicacion
            (autoId env) with
    | Some (s', docRef_id) =>
        (s', mkRes 201 (json_ (stringify
               (nuevaUbicacion ∪ {[ "id" := Some (JStr docRef_id) ]}))))
    | None => (s, errorInterno)
    end.
End Literal.

(** The view of one resource that the routes give: the handler Express
    selects for each of its four requests, and the parameters of that
    handler. *)
Definition handlerDe (m : Metodo) (r : string) (conId : bool) : option Handler :=
  snd <$> despachar (mkReq m r (if conId then Some "" else None) ∅).

(** The fields the create handler of [r] destructures, with their tests. *)
Definition requeridos (r : string) : list (string * Presencia) :=
  match handlerDe POST r false with
  | Some (Crear _ campos _ _ _) => campos
  | _ => []
  end.

(** Whether the create handler of [r] checks the rating range. *)
Definition conRango (r : string) : bool :=
  match handlerDe POST r false with
  | Some (Crear _ _ rango _ _) => rango
  | _ => false
  end.

(** Whether the create handler of [r] adds [fechaRegistro]. *)
Definition conFechaRegistro (r : string) : bool :=
  match handlerDe POST r false with
  | Some (Crear _ _ _ fr _) => fr
  | _ => false
  end.

(** The 400 message of the create handler of [r]. *)
Definition mensajeFaltan (r : string) : string :=
  match handlerDe POST r false with
  | Some (Crear _ _ _ _ faltan) => faltan
  | _ => ""
  end.

(** The 404 message of [r]. *)
Definition noEncontrado (r : string) : string :=
  match handlerDe GET r true with
  | Some (Obtener _ ne) => ne
  | _ => ""
  end.

(** The 200 messages of the update and delete handlers of [r]. *)
Definition exitoActualizar (r : string) : string :=
  match handlerDe PUT r true with
  | Some (Actualizar _ _ _ _ ok) => ok
  | _ => ""
  end.

Definition exitoEliminar (r : string) : string :=
  match handlerDe DELETE r true with
  | Some (Eliminar _ _ ok) => ok
  | _ => ""
  end.

(** The ten resource paths of [server.js]. *)
Definition recursos : list string :=
  ["usuarios"; "maquinas"; "alquileres"; "pagos"; "distribuidores"; "resenas";
   "categorias"; "ubicaciones"; "soporte"; "trabajadores"].

(** Reading a message for the field names it lists: the messages write
    [descripción] and [máquina] with their accents (two bytes in UTF-8),
    the fields are [descripcion] and [maquina]. *)
Fixpoint sinAcentos (s : string) : string :=
  match s with
  | String "195"%char (String c s') =>
      if Ascii.eqb c "161"%char then String "a"%char (sinAcentos s')
      else if Ascii.eqb c "169"%char then String "e"%char (sinAcentos s')
      else if Ascii.eqb c "173"%char then String "i"%char (sinAcentos s')
      else if Ascii.eqb c "179"%char then String "o"%char (sinAcentos s')
      else if Ascii.eqb c "186"%char then String "u"%char (sinAcentos s')
      else String "195"%char (String c (sinAcentos s'))
  | String c s' => String c (sinAcentos s')
  | EmptyString => EmptyString
  end.

(** [contiene sub s]: [sub] occurs in [s]. *)
Fixpoint contiene (sub s : string) : bool :=
  String.prefix sub s ||
  match s with
  | EmptyString => false
  | String _ s' => contiene sub s'
  end.

(** The message [m] names the field [f]. *)
Definition nombra (m f : string) : bool := contiene f (sinAcentos m).


(** ** Data of the closed examples *)

(** A [StringToNumber] for the closed examples.  None of them rates with a
    string, so none of them consults it. *)
Definition sinCadenas : string → option Q := λ _, None.

Definition entorno1 : Entorno := mkEnv "2024-05-01T10:00:00.000Z" "Xk29dLq0".

(** [{"nombre":"Ana","correo":"ana@x.com","rol":"admin"}] *)
Definition ana : Doc :=
  {[ "nombre" := JStr "Ana"; "correo" := JStr "ana@x.com"; "rol" := JStr "admin" ]}.

(** [{"nombre":"Grua","descripcion":"Torre","precio":1500,
      "distribuidor":{"id":"d1","nombre":"Acme"},"anio":2020}] *)
Definition grua : Doc :=
  {[ "nombre" := JStr "Grua"; "descripcion" := JStr "Torre"; "precio" := JNum 1500;
     "distribuidor" := JObj [("id", JStr "d1"); ("nombre", JStr "Acme")];
     "anio" := JNum 2020 ]}.


(** [grua] offered for free: [precio] is [0]. *)
Definition grua_gratis : Doc := <["precio" := JNum 0]> grua.

(** [{"nombre":"Bodega","direccion":"Calle 1","latitud":19.5,"longitud":0}] *)
Definition bodega : Doc :=
  {[ "nombre" := JStr "Bodega"; "direccion" := JStr "Calle 1";
     "latitud" := JNum (39 # 2); "longitud" := JNum 0 ]}.

(** [{"nombre":"Ana","correo":"ana@x.com","rol":"admin","telefono":"555-0101"}] *)
Definition ana_con_telefono : Doc :=
  {[ "nombre" := JStr "Ana"; "correo" := JStr "ana@x.com"; "rol" := JStr "admin";
     "telefono" := JStr "555-0101" ]}.

(** [ana] as the user handler stores it at the time of [entorno1]. *)
Definition ana_guardada : Doc :=
  {[ "nombre" := JStr "Ana"; "correo" := JStr "ana@x.com"; "rol" := JStr "admin";
     "fechaRegistro" := JStr "2024-05-01T10:00:00.000Z" ]}.


(** [{"usuarioId":"u1","productoId":"m1","calificacion":6,"comentario":"ok"}] *)
Definition resena_6 : Doc :=
  {[ "usuarioId" := JStr "u1"; "productoId" := JStr "m1"; "calificacion" := JNum 6;
     "comentario" := JStr "ok" ]}.

(** A review whose rating is [q]:
    [{"usuarioId":"u1","productoId":"m1","calificacion":q,"comentario":""}] *)
Definition resena (q : Q) : Doc :=
  {[ "usuarioId" := JStr "u1"; "productoId" := JStr "m1"; "calificacion" := JNum q;
     "comentario" := JStr "" ]}.

(** [{"nombre":"Origen","direccion":"Golfo de Guinea","latitud":0,"longitud":0}] *)
Definition origen : Doc :=
  {[ "nombre" := JStr "Origen"; "direccion" := JStr "Golfo de Guinea";
     "latitud" := JNum 0; "longitud" := JNum 0 ]}.

(** A store that holds one review, rated 3, under [r1]. *)
Definition una_resena : Store := {[ ("resenas", "r1") := resena 3 ]}.

(** [ana] with an empty name:
    [{"nombre":"","correo":"ana@x.com","rol":"admin"}] *)
Definition ana_sin_nombre : Doc := <["nombre" := JStr ""]> ana.

(** [ana_guardada] after an update with [ana_sin_nombre]. *)
Definition ana_renombrada : Doc :=
  {[ "nombre" := JStr ""; "correo" := JStr "ana@x.com"; "rol" := JStr "admin";
     "fechaRegistro" := JStr "2024-05-01T10:00:00.000Z" ]}.

(** A store that holds the user [ana_guardada] under [u1]. *)
Definition una_usuaria : Store := {[ ("usuarios", "u1") := ana_guardada ]}.

(** A payment in the shape of the second registration of [/pagos]:
    [{"usuarioId":"u1","monto":250,"fecha":"2024-05-02","metodo":"tarjeta"}] *)
Definition pago_por_usuario : Doc :=
  {[ "usuarioId" := JStr "u1"; "monto" := JNum 250; "fecha" := JStr "2024-05-02";
     "metodo" := JStr "tarjeta" ]}.

(** ** Runs, footprints and well-formed stores

    What the further properties at the end of the file are stated with. *)

(** A request that the pattern of a route describes: its method, its
    resource, and some identifier when the path ends in [/:id]. *)
Definition peticionDe (r : Ruta) : Request :=
  mkReq (r_metodo r) (r_recurso r) (if r_conId r then Some "x" else None) ∅.

(** The one document a request addresses: in the collection named by the
    path, under the identifier the store draws (for a create) or under
    [req.params.id]. *)
Definition objetivo (env : Entorno) (req : Request) : string * string :=
  (recurso req,
   match metodo req with
   | POST => autoId env
   | _ => default "" (params_id req)
   end).

(** The application run on a sequence of requests, each with its
    environment; a request that no route serves leaves the store alone. *)
Definition correr (StringToNumber : string → option Q) (ignoreUndefinedProperties : bool)
    (ps : list (Entorno * Request)) (s : Store) : Store :=
  foldl (λ s p, match app StringToNumber ignoreUndefinedProperties p.1 p.2 s with
                | Some (s', _) => s'
                | None => s
                end) s ps.

(** A document of the resource [r] that has every field the handlers of [r]
    destructure, [fechaRegistro] when [r] stamps it, and no other field. *)
Definition documento_bien_formado (r : string) (d : Doc) : Prop :=
  (∀ f, f ∈ (requeridos r).*1 → is_Some (d !! f))
  ∧ (conFechaRegistro r = true → is_Some (d !! "fechaRegistro"))
  ∧ (∀ f, is_Some (d !! f) →
       f ∈ (requeridos r).*1 ∨ (conFechaRegistro r = true ∧ f = "fechaRegistro")).

(** A store whose documents all sit in the collection of a resource and are
    well formed for it. *)
Definition almacen_bien_formado (s : Store) : Prop :=
  ∀ r id d, s !! (r, id) = Some d → r ∈ recursos ∧ documento_bien_formado r d.

(** A review whose rating is any JSON value [v]:
    [{"usuarioId":"u1","productoId":"m1","calificacion":v,"comentario":"ok"}] *)
Definition resena_con (v : json) : Doc :=
  {[ "usuarioId" := JStr "u1"; "productoId" := JStr "m1"; "calificacion" := v;
     "comentario" := JStr "ok" ]}.

(** [{"usuarioId":"u1","productoId":"m1","calificacion":6}] *)
Definition resena_6_sin_comentario : Doc :=
  {[ "usuarioId" := JStr "u1"; "productoId" := JStr "m1"; "calificacion" := JNum 6 ]}.

(** A store whose one user document carries a field named [id], as a
    document written by another client of the same database can. *)
Definition usuaria_con_id : Store :=
  {[ ("usuarios", "u1") := <["id" := JStr "otro"]> ana_guardada ]}.

(** * Properties *)

(** ** Object literals *)

Lemma shorthand_lookup (campos : list string) (body : Doc) (f : string) :
  shorthand campos body !! f = if decide (f ∈ campos) then Some (body !! f) else None.
Proof.
  induction campos as [|g campos IH]; simpl.
  - rewrite lookup_empty. destruct (decide (f ∈ [])) as [Hin|]; [by apply elem_of_nil in Hin | done].
  - rewrite lookup_insert. destruct (decide (g = f)) as [->|Hne].
    + rewrite decide_True; [done | by left].
    + rewrite IH. destruct (decide (f ∈ campos)) as [Hin|Hnin].
      * rewrite decide_True; [done | by right].
      * rewrite decide_False; [done |].
        intros [->|?]%elem_of_cons; [by apply Hne | by apply Hnin].
Qed.

Lemma stringify_lookup (o : JsObject) (f : string) :
  stringify o !! f = o !! f ≫= id.
Proof. unfold stringify. by rewrite lookup_omap. Qed.

Lemma sinUndefined_shorthand (campos : list string) (body : Doc) :
  (∀ f, f ∈ campos → is_Some (body !! f)) →
  Firestore.sinUndefined (shorthand campos body) = true.
Proof.
  intros Hdef. apply bool_decide_eq_true. intros f v Hf.
  rewrite shorthand_lookup in Hf. case_decide; [|done].
  injection Hf as <-. by apply Hdef.
Qed.

Lemma sinUndefined_insert (o : JsObject) (k : string) (v : json) :
  Firestore.sinUndefined o = true → Firestore.sinUndefined (<[k := Some v]> o) = true.
Proof.
  intros Ho%bool_decide_eq_true. apply bool_decide_eq_true.
  apply map_Forall_insert_2; [by eexists | done].
Qed.

Lemma truthy_defined (x : option json) : truthy x = true → is_Some x.
Proof. destruct x; [by eexists | done]. Qed.

Lemma presente_defined (p : Presencia) (x : option json) :
  falta p x = false → is_Some x.
Proof.
  destruct p; simpl.
  - intros H%negb_false_iff. by apply truthy_defined.
  - destruct x; [by eexists | done].
Qed.


Section HandlerFacts.
Variable StringToNumber : string → option Q.
Variable ignoreUndefinedProperties : bool.

#[local] Abbreviation crear := (crear StringToNumber ignoreUndefinedProperties).
#[local] Abbreviation actualizar := (actualizar StringToNumber ignoreUndefinedProperties).

(** The fields of the stored object. *)
Lemma objetoNuevo_lookup campos fr env body f :
  stringify (objetoNuevo campos fr env body) !! f =
    if fr && bool_decide (f = "fechaRegistro") then Some (JStr (now env))
    else if decide (f ∈ campos) then body !! f else None.
Proof.
  rewrite stringify_lookup. unfold objetoNuevo. destruct fr; simpl.
  - rewrite lookup_insert. case_bool_decide as Hf.
    + subst f. by rewrite decide_True.
    + rewrite decide_False by done. rewrite shorthand_lookup. by case_decide.
  - rewrite shorthand_lookup. by case_decide.
Qed.

Lemma objetoNuevo_sinUndefined campos fr env body :
  (∀ f, f ∈ campos → is_Some (body !! f)) →
  Firestore.sinUndefined (objetoNuevo campos fr env body) = true.
Proof.
  intros Hdef. unfold objetoNuevo. destruct fr.
  - by apply sinUndefined_insert, sinUndefined_shorthand.
  - by apply sinUndefined_shorthand.
Qed.

(** [{ id: docRef.id, ...nuevo }] when [nuevo] has no [id] of its own. *)
Lemma stringify_con_id (o : JsObject) (i : string) :
  o !! "id" = None →
  stringify (o ∪ {[ "id" := Some (JStr i) ]}) = <["id" := JStr i]> (stringify o).
Proof.
  intros Hid. apply map_eq. intros f.
  rewrite stringify_lookup, lookup_union, lookup_insert, lookup_singleton.
  destruct (decide ("id" = f)) as [<-|Hne].
  - by rewrite Hid.
  - rewrite stringify_lookup. by destruct (o !! f).
Qed.

Lemma objetoNuevo_id campos fr env body :
  "id" ∉ campos → objetoNuevo campos fr env body !! "id" = None.
Proof.
  intros Hid. unfold objetoNuevo. destruct fr.
  - rewrite lookup_insert_ne by done. rewrite shorthand_lookup. by rewrite decide_False.
  - rewrite shorthand_lookup. by rewrite decide_False.
Qed.

(** A create whose fields all pass their test, whose rating (if checked)
    is in range and whose identifier is free stores the object and
    answers 201 with the identifier and the stored fields. *)
Lemma crear_201 c campos rango fr faltan env req s :
  existsb (λ fp, falta fp.2 (body req !! fp.1)) campos = false →
  rango && fueraDeRango StringToNumber (body req !! "calificacion") = false →
  s !! (c, autoId env) = None →
  "id" ∉ campos.*1 →
  crear c campos rango fr faltan env req s =
    (<[(c, autoId env) := stringify (objetoNuevo campos.*1 fr env (body req))]> s,
     mkRes 201 (json_ (<["id" := JStr (autoId env)]>
                         (stringify (objetoNuevo campos.*1 fr env (body req)))))).
Proof.
  intros Hpres Hrango Hfresh Hid. unfold crear. rewrite Hpres, Hrango.
  unfold Firestore.add, Firestore.fields, Firestore.get.
  rewrite objetoNuevo_sinUndefined, orb_true_r, Hfresh.
  - by rewrite stringify_con_id by by apply objetoNuevo_id.
  - intros f [[f' p] [-> Hin]]%list_elem_of_fmap. simpl.
    apply (presente_defined p).
    destruct (falta p (body req !! f')) eqn:Hf; [|done].
    assert (existsb (λ fp, falta fp.2 (body req !! fp.1)) campos = true) as Hex.
    { apply existsb_exists. exists (f', p). split; [by apply list_elem_of_In | done]. }
    congruence.
Qed.

(** A create with a field that fails its test answers 400 with the fixed
    message and leaves the store alone. *)
Lemma crear_400_faltan c campos rango fr faltan env req s f p :
  (f, p) ∈ campos → falta p (body req !! f) = true →
  crear c campos rango fr faltan env req s = (s, mkRes 400 (mensaje faltan)).
Proof.
  intros Hin Hf. unfold crear.
  assert (existsb (λ fp, falta fp.2 (body req !! fp.1)) campos = true) as ->; [|done].
  apply existsb_exists. exists (f, p). split; [by apply list_elem_of_In | done].
Qed.

(** A create handler with a range test answers 400, with one of its two
    messages, to a rating out of range. *)
Lemma crear_400_rango c campos fr faltan env req s :
  fueraDeRango StringToNumber (body req !! "calificacion") = true →
  ∃ m, crear c campos true fr faltan env req s = (s, mkRes 400 (mensaje m)).
Proof.
  intros Hr. unfold crear. rewrite Hr. simpl.
  destruct (existsb _ campos); eauto.
Qed.

(** *** Read *)

Lemma obtener_404 c ne req s id :
  params_id req = Some id → s !! (c, id) = None →
  obtener c ne req s = (s, mkRes 404 (mensaje ne)).
Proof. intros Hid Hs. unfold obtener, Firestore.get. by rewrite Hid, Hs. Qed.

Lemma obtener_200 c ne req s id d :
  params_id req = Some id → s !! (c, id) = Some d →
  obtener c ne req s = (s, mkRes 200 (json_ (d ∪ {[ "id" := JStr id ]}))).
Proof. intros Hid Hs. unfold obtener, Firestore.get. by rewrite Hid, Hs. Qed.

(** *** Update *)

(** The document after a merge of the destructured fields into [old]. *)
Lemma merge_lookup campos (body old : Doc) f :
  (stringify (shorthand campos body) ∪ old) !! f =
    if decide (f ∈ campos)
    then match body !! f with Some v => Some v | None => old !! f end
    else old !! f.
Proof.
  rewrite lookup_union, stringify_lookup, shorthand_lookup.
  case_decide; simpl.
  - destruct (body !! f), (old !! f); done.
  - by destruct (old !! f).
Qed.

Lemma actualizar_404 c campos rango ne ok req s id :
  params_id req = Some id → s !! (c, id) = None →
  actualizar c campos rango ne ok req s = (s, mkRes 404 (mensaje ne)).
Proof. intros Hid Hs. unfold actualizar, Firestore.get. by rewrite Hid, Hs. Qed.

Lemma actualizar_400 c campos ne ok req s id old :
  params_id req = Some id → s !! (c, id) = Some old →
  fueraDeRango StringToNumber (body req !! "calificacion") = true →
  actualizar c campos true ne ok req s = (s, mkRes 400 (mensaje fueraDeRangoMsg)).
Proof.
  intros Hid Hs Hr. unfold actualizar, Firestore.get. by rewrite Hid, Hs, Hr.
Qed.

Lemma actualizar_200 c campos rango ne ok req s id old :
  params_id req = Some id → s !! (c, id) = Some old →
  rango && fueraDeRango StringToNumber (body req !! "calificacion") = false →
  ignoreUndefinedProperties = true ∨ (∀ f, f ∈ campos → is_Some (body req !! f)) →
  actualizar c campos rango ne ok req s =
    (<[(c, id) := stringify (shorthand campos (body req)) ∪ old]> s,
     mkRes 200 (mensaje ok)).
Proof.
  intros Hid Hs Hr Hdef.
  unfold actualizar, Firestore.update, Firestore.fields, Firestore.get.
  rewrite Hid, Hs, Hr.
  destruct Hdef as [->|Hdef]; [done |].
  by rewrite sinUndefined_shorthand, orb_true_r.
Qed.


(** *** Delete *)

Lemma eliminar_404 c ne ok req s id :
  params_id req = Some id → s !! (c, id) = None →
  eliminar c ne ok req s = (s, mkRes 404 (mensaje ne)).
Proof. intros Hid Hs. unfold eliminar, Firestore.get. by rewrite Hid, Hs. Qed.

Lemma eliminar_200 c ne ok req s id d :
  params_id req = Some id → s !! (c, id) = Some d →
  eliminar c ne ok req s = (base.delete (c, id) s, mkRes 200 (mensaje ok)).
Proof. intros Hid Hs. unfold eliminar, Firestore.get. by rewrite Hid, Hs. Qed.
End HandlerFacts.

(** ** Routing *)

(** Splits [r ∈ recursos] into its ten cases. *)
Ltac por_recurso H :=
  repeat (apply elem_of_cons in H; destruct H as [->|H]);
  [..| by apply elem_of_nil in H].

(** Membership in a closed list, by evaluation. *)
Ltac en_lista := apply (bool_decide_unpack _); by vm_compute.

(** A lookup at a key that differs from every key of a literal map. *)
Ltac sin_clave :=
  rewrite ?lookup_insert_ne by done; rewrite ?lookup_singleton_ne by done;
  rewrite ?lookup_empty.

(** [m = cte] for a literal map [cte], given the lookups of [m] by [lema]:
    key by key of [cte], then for any other key. *)
Ltac mapa_literal lema cte :=
  let k := fresh "k" in let lhs := fresh "lhs" in let Hin := fresh "Hin" in
  apply map_eq; intros k; rewrite lema;
  match goal with |- ?L = _ => set (lhs := L) end;
  unfold cte;
  repeat match goal with
    | |- _ = <[?i := _]> _ !! k =>
        destruct (decide (i = k)) as [<-|?];
        [by subst lhs | rewrite (lookup_insert_ne _ i k) by done]
    | |- _ = {[?i := _]} !! k =>
        destruct (decide (i = k)) as [<-|?];
        [by subst lhs | rewrite (lookup_singleton_ne i k) by done]
    end;
  rewrite ?lookup_empty; subst lhs; simpl;
  rewrite ?bool_decide_eq_false_2 by done; simpl;
  case_decide as Hin;
  [ exfalso;
    repeat (apply elem_of_cons in Hin; destruct Hin as [->|Hin]; [done |]);
    by apply elem_of_nil in Hin
  | ].

Section Routing.
Variable StringToNumber : string → option Q.
Variable ignoreUndefinedProperties : bool.

#[local] Abbreviation app := (app StringToNumber ignoreUndefinedProperties).

(** [POST /r] runs the create handler of [r], on the collection [r]. *)
Lemma app_POST r env b s :
  r ∈ recursos →
  app env (mkReq POST r None b) s =
    Some (crear StringToNumber ignoreUndefinedProperties r (requeridos r)
            (conRango r) (conFechaRegistro r) (mensajeFaltan r)
            env (mkReq POST r None b) s).
Proof. intros H. por_recurso H; reflexivity. Qed.

(** [GET /r/:id] runs the read handler of [r]. *)
Lemma app_GET r env id b s :
  r ∈ recursos →
  app env (mkReq GET r (Some id) b) s =
    Some (obtener r (noEncontrado r) (mkReq GET r (Some id) b) s).
Proof. intros H. por_recurso H; reflexivity. Qed.

(** [PUT /r/:id] runs the update handler of [r]: it destructures the same
    fields as the create handler, checks the range where the create
    handler does, and shares the 404 message of the read handler. *)
Lemma app_PUT r env id b s :
  r ∈ recursos →
  app env (mkReq PUT r (Some id) b) s =
    Some (actualizar StringToNumber ignoreUndefinedProperties r (requeridos r).*1
            (conRango r) (noEncontrado r) (exitoActualizar r)
            (mkReq PUT r (Some id) b) s).
Proof. intros H. por_recurso H; reflexivity. Qed.

(** [DELETE /r/:id] runs the delete handler of [r]. *)
Lemma app_DELETE r env id b s :
  r ∈ recursos →
  app env (mkReq DELETE r (Some id) b) s =
    Some (eliminar r (noEncontrado r) (exitoEliminar r)
            (mkReq DELETE r (Some id) b) s).
Proof. intros H. por_recurso H; reflexivity. Qed.
End Routing.

(** ** The transcribed handlers are the entries of [rutas] *)

(** An object literal with distinct keys is the [shorthand] of its fields. *)
Ltac literal_shorthand :=
  apply map_eq; intros k; unfold objetoNuevo, shorthand; simpl;
  repeat match goal with
  | |- context [<[?i := _]> _ !! k] =>
      destruct (decide (i = k)) as [<-|?];
      [by simplify_map_eq | rewrite !(lookup_insert_ne _ i k) by done]
  | |- context [{[?i := _]} !! k] =>
      destruct (decide (i = k)) as [<-|?];
      [by simplify_map_eq | rewrite !(lookup_singleton_ne i k) by done]
  end; done.

Section LiteralFacts.
Variable StringToNumber : string → option Q.
Variable ignoreUndefinedProperties : bool.

#[local] Abbreviation ejecutar := (ejecutar StringToNumber ignoreUndefinedProperties).

Lemma post_usuarios_ruta env req s :
  ∃ h, rutas !! 1%nat = Some (app_post "usuarios" h)
       ∧ ejecutar h env req s =
         post_usuarios ignoreUndefinedProperties env req s.
Proof.
  eexists. split; [reflexivity |]. simpl. unfold crear, post_usuarios. simpl.
  replace (objetoNuevo ["nombre"; "correo"; "rol"] true env (body req))
    with ({[ "nombre" := body req !! "nombre"; "correo" := body req !! "correo";
             "rol" := body req !! "rol";
             "fechaRegistro" := Some (JStr (now env)) ]} : JsObject)
    by literal_shorthand.
  by destruct (truthy (body req !! "nombre")), (truthy (body req !! "correo")),
       (truthy (body req !! "rol")).
Qed.

Lemma get_usuarios_id_ruta env req s :
  ∃ h, rutas !! 2%nat = Some (app_get_id "usuarios" h)
       ∧ ejecutar h env req s = get_usuarios_id req s.
Proof. eexists. split; reflexivity. Qed.

Lemma put_usuarios_id_ruta env req s :
  ∃ h, rutas !! 3%nat = Some (app_put_id "usuarios" h)
       ∧ ejecutar h env req s =
         put_usuarios_id ignoreUndefinedProperties req s.
Proof.
  eexists. split; [reflexivity |]. simpl. unfold actualizar, put_usuarios_id.
  replace (shorthand ["nombre"; "correo"; "rol"] (body req))
    with ({[ "nombre" := body req !! "nombre"; "correo" := body req !! "correo";
             "rol" := body req !! "rol" ]} : JsObject)
    by literal_shorthand.
  done.
Qed.

Lemma delete_usuarios_id_ruta env req s :
  ∃ h, rutas !! 4%nat = Some (app_delete_id "usuarios" h)
       ∧ ejecutar h env req s = delete_usuarios_id req s.
Proof. eexists. split; reflexivity. Qed.

Lemma post_maquinas_ruta env req s :
  ∃ h, rutas !! 5%nat = Some (app_post "maquinas" h)
       ∧ ejecutar h env req s =
         post_maquinas ignoreUndefinedProperties env req s.
Proof.
  eexists. split; [reflexivity |]. simpl. unfold crear, post_maquinas. simpl.
  replace (objetoNuevo ["nombre"; "descripcion"; "precio"; "distribuidor"] false env
             (body req))
    with ({[ "nombre" := body req !! "nombre";
             "descripcion" := body req !! "descripcion";
             "precio" := body req !! "precio";
             "distribuidor" := body req !! "distribuidor" ]} : JsObject)
    by literal_shorthand.
  by destruct (truthy (body req !! "nombre")), (truthy (body req !! "descripcion")),
       (truthy (body req !! "precio")), (truthy (body req !! "distribuidor")).
Qed.

Lemma post_pagos_ruta env req s :
  ∃ h, rutas !! 13%nat = Some (app_post "pagos" h)
       ∧ ejecutar h env req s = post_pagos ignoreUndefinedProperties env req s.
Proof.
  eexists. split; [reflexivity |]. simpl. unfold crear, post_pagos. simpl.
  replace (objetoNuevo ["alquilerId"; "monto"; "metodo"; "fecha_pago"] false env
             (body req))
    with ({[ "alquilerId" := body req !! "alquilerId"; "monto" := body req !! "monto";
             "metodo" := body req !! "metodo";
             "fecha_pago" := body req !! "fecha_pago" ]} : JsObject)
    by literal_shorthand.
  by destruct (truthy (body req !! "alquilerId")), (truthy (body req !! "monto")),
       (truthy (body req !! "metodo")), (truthy (body req !! "fecha_pago")).
Qed.

Lemma post_pagos_2_ruta env req s :
  ∃ h, rutas !! 33%nat = Some (app_post "pagos" h)
       ∧ ejecutar h env req s = post_pagos_2 ignoreUndefinedProperties env req s.
Proof.
  eexists. split; [reflexivity |]. simpl. unfold crear, post_pagos_2. simpl.
  replace (objetoNuevo ["usuarioId"; "monto"; "fecha"; "metodo"] false env (body req))
    with ({[ "usuarioId" := body req !! "usuarioId"; "monto" := body req !! "monto";
             "fecha" := body req !! "fecha";
             "metodo" := body req !! "metodo" ]} : JsObject)
    by literal_shorthand.
  by destruct (truthy (body req !! "usuarioId")), (truthy (body req !! "monto")),
       (truthy (body req !! "fecha")), (truthy (body req !! "metodo")).
Qed.

Lemma post_resenas_ruta env req s :
  ∃ h, rutas !! 21%nat = Some (app_post "resenas" h)
       ∧ ejecutar h env req s =
         post_resenas StringToNumber ignoreUndefinedProperties env req s.
Proof.
  eexists. split; [reflexivity |]. simpl. unfold crear, post_resenas, fueraDeRango. simpl.
  replace (objetoNuevo ["usuarioId"; "productoId"; "calificacion"; "comentario"] false
             env (body req))
    with ({[ "usuarioId" := body req !! "usuarioId";
             "productoId" := body req !! "productoId";
             "calificacion" := body req !! "calificacion";
             "comentario" := body req !! "comentario" ]} : JsObject)
    by literal_shorthand.
  by destruct (truthy (body req !! "usuarioId")), (truthy (body req !! "productoId")),
       (truthy (body req !! "calificacion")), (isUndefined (body req !! "comentario")).
Qed.

Lemma put_resenas_id_ruta env req s :
  ∃ h, rutas !! 23%nat = Some (app_put_id "resenas" h)
       ∧ ejecutar h env req s =
         put_resenas_id StringToNumber ignoreUndefinedProperties req s.
Proof.
  eexists. split; [reflexivity |]. simpl.
  unfold actualizar, put_resenas_id, fueraDeRango. simpl.
  replace (shorthand ["usuarioId"; "productoId"; "calificacion"; "comentario"] (body req))
    with ({[ "usuarioId" := body req !! "usuarioId";
             "productoId" := body req !! "productoId";
             "calificacion" := body req !! "calificacion";
             "comentario" := body req !! "comentario" ]} : JsObject)
    by literal_shorthand.
  done.
Qed.

Lemma post_ubicaciones_ruta env req s :
  ∃ h, rutas !! 29%nat = Some (app_post "ubicaciones" h)
       ∧ ejecutar h env req s =
         post_ubicaciones ignoreUndefinedProperties env req s.
Proof.
  eexists. split; [reflexivity |]. simpl. unfold crear, post_ubicaciones. simpl.
  replace (objetoNuevo ["nombre"; "direccion"; "latitud"; "longitud"] false env
             (body req))
    with ({[ "nombre" := body req !! "nombre"; "direccion" := body req !! "direccion";
             "latitud" := body req !! "latitud";
             "longitud" := body req !! "longitud" ]} : JsObject)
    by literal_shorthand.
  by destruct (truthy (body req !! "nombre")), (truthy (body req !! "direccion")),
       (isUndefined (body req !! "latitud")), (isUndefined (body req !! "longitud")).
Qed.
End LiteralFacts.

(** No resource has a field called [id] or [fechaRegistro]. *)
Lemma requeridos_sin_id r :
  r ∈ recursos →
  ("id" ∉ ((requeridos r).*1)) ∧ ("fechaRegistro" ∉ ((requeridos r).*1)).
Proof.
  intros H. por_recurso H; split; apply (bool_decide_unpack _); by vm_compute.
Qed.

(** Only the user resource adds [fechaRegistro]. *)
Lemma conFechaRegistro_usuarios r :
  r ∈ recursos → conFechaRegistro r = bool_decide (r = "usuarios").
Proof. intros H. por_recurso H; reflexivity. Qed.

(** ** Create *)

Section Create.
Variable StringToNumber : string → option Q.
Variable ignoreUndefinedProperties : bool.

#[local] Abbreviation app := (app StringToNumber ignoreUndefinedProperties).

(** What every successful create does, in the terms of the source: the
    stored object is [objetoNuevo], the answer is that object with [id]. *)
Lemma crear_recurso r env body s :
  r ∈ recursos →
  Forall (λ fp, falta fp.2 (body !! fp.1) = false) (requeridos r) →
  (conRango r = true → fueraDeRango StringToNumber (body !! "calificacion") = false) →
  s !! (r, autoId env) = None →
  app env (mkReq POST r None body) s =
    Some (<[(r, autoId env) :=
             stringify (objetoNuevo ((requeridos r).*1) (conFechaRegistro r) env body)]> s,
          mkRes 201 (json_ (<["id" := JStr (autoId env)]>
             (stringify (objetoNuevo ((requeridos r).*1) (conFechaRegistro r) env body))))).
Proof.
  intros Hr Hpres Hrango Hfresh. rewrite app_POST by done. f_equal.
  apply crear_201; simpl.
  - destruct (existsb _ _) eqn:Hex; [|done].
    apply existsb_exists in Hex as (fp & Hin%list_elem_of_In & Hf).
    rewrite Forall_forall in Hpres. rewrite (Hpres fp Hin) in Hf. done.
  - destruct (conRango r); [by rewrite Hrango | done].
  - done.
  - by apply requeridos_sin_id.
Qed.

(** The fields of the stored document of a resource. *)
Lemma documento_campos r env body :
  r ∈ recursos →
  let doc := stringify (objetoNuevo ((requeridos r).*1) (conFechaRegistro r) env body) in
  (∀ f, f ∈ (requeridos r).*1 → doc !! f = body !! f)
  ∧ doc !! "fechaRegistro" =
      (if bool_decide (r = "usuarios") then Some (JStr (now env)) else None)
  ∧ (∀ f, f ∉ (requeridos r).*1 → f ≠ "fechaRegistro" → doc !! f = None).
Proof.
  intros Hr doc. destruct (requeridos_sin_id r Hr) as [_ Hfr].
  split; [|split].
  - intros f Hf. unfold doc. rewrite objetoNuevo_lookup.
    rewrite bool_decide_eq_false_2, andb_false_r; [by rewrite decide_True |].
    by intros ->.
  - unfold doc. rewrite objetoNuevo_lookup, <- conFechaRegistro_usuarios by done.
    rewrite bool_decide_eq_true_2, andb_true_r by done.
    destruct (conFechaRegistro r); [done | by rewrite decide_False].
  - intros f Hf Hne. unfold doc. rewrite objetoNuevo_lookup.
    rewrite bool_decide_eq_false_2, andb_false_r by done. by rewrite decide_False.
Qed.
End Create.

(** The documents that the closed examples store. *)
Lemma ana_con_telefono_documento :
  stringify (objetoNuevo ((requeridos "usuarios").*1) (conFechaRegistro "usuarios")
               entorno1 ana_con_telefono) = ana_guardada.
Proof.
  change (stringify (objetoNuevo ["nombre"; "correo"; "rol"] true entorno1
                       ana_con_telefono) = ana_guardada).
  mapa_literal objetoNuevo_lookup ana_guardada. done.
Qed.


Lemma bodega_documento :
  stringify (objetoNuevo ((requeridos "ubicaciones").*1)
               (conFechaRegistro "ubicaciones") entorno1 bodega) = bodega.
Proof.
  change (stringify (objetoNuevo ["nombre"; "direccion"; "latitud"; "longitud"]
                       false entorno1 bodega) = bodega).
  mapa_literal objetoNuevo_lookup bodega. done.
Qed.

Lemma ana_fusion :
  stringify (shorthand ((requeridos "usuarios").*1) ana_sin_nombre) ∪ ana_guardada
  = ana_renombrada.
Proof.
  change (stringify (shorthand ["nombre"; "correo"; "rol"] ana_sin_nombre)
          ∪ ana_guardada = ana_renombrada).
  mapa_literal merge_lookup ana_renombrada. unfold ana_guardada. by sin_clave.
Qed.




(** ** Create with a field missing *)

(** Which fields are tested for definedness rather than truthiness. *)
Lemma requeridos_definido r f p :
  r ∈ recursos → (f, p) ∈ requeridos r →
  p = Definido ↔
    (r = "resenas" ∧ f = "comentario")
    ∨ (r = "ubicaciones" ∧ (f = "latitud" ∨ f = "longitud")).
Proof.
  intros Hr Hin. por_recurso Hr; vm_compute in Hin;
    repeat (apply elem_of_cons in Hin; destruct Hin as [Heq|Hin];
            [apply pair_equal_spec in Heq; destruct Heq; subst f p |]);
    try (by apply elem_of_nil in Hin);
    (split;
     [ intros Hp;
       first [ discriminate Hp
             | left; split; reflexivity
             | right; split; [reflexivity | first [by left | by right]] ]
     | intros Hd;
       first [ reflexivity | destruct Hd as [[? ?]|[? [?|?]]]; discriminate ] ]).
Qed.

(** Every 400 message of a create handler names each required field. *)
Lemma mensajeFaltan_nombra r :
  r ∈ recursos → forallb (nombra (mensajeFaltan r)) ((requeridos r).*1) = true.
Proof. intros Hr. por_recurso Hr; by vm_compute. Qed.

(** C2 (as amended).  For every resource and every payload in which some
    required field fails the presence test of its handler, create answers
    400 with the fixed message of the resource, which names every required
    field, and the store is unchanged.  The test is truthiness (absent,
    [null], [false], [0] and the empty string fail it) for every field
    except the [comentario] of a review and the [latitud] and [longitud] of
    a location, which fail only when absent. *)
Theorem crear_incompleto (StringToNumber : string → option Q)
    (ignoreUndefinedProperties : bool)
    (r : string) (env : Entorno) (body : Doc) (s : Store) (f : string) (p : Presencia) :
  r ∈ recursos →
  (f, p) ∈ requeridos r →
  falta p (body !! f) = true →
  app StringToNumber ignoreUndefinedProperties env (mkReq POST r None body) s =
    Some (s, mkRes 400 (mensaje (mensajeFaltan r)))
  ∧ forallb (nombra (mensajeFaltan r)) ((requeridos r).*1) = true
  ∧ (p = Definido ↔
       (r = "resenas" ∧ f = "comentario")
       ∨ (r = "ubicaciones" ∧ (f = "latitud" ∨ f = "longitud"))).
Proof.
  intros Hr Hin Hf. split; [|split].
  - rewrite app_POST by done. f_equal. by eapply crear_400_faltan.
  - by apply mensajeFaltan_nombra.
  - by apply requeridos_definido.
Qed.

Lemma crear_incompleto_witness :
  "maquinas" ∈ recursos
  ∧ ("precio", Truthy) ∈ requeridos "maquinas"
  ∧ falta Truthy (grua_gratis !! "precio") = true
  ∧ app sinCadenas false entorno1 (mkReq POST "maquinas" None grua_gratis) ∅ =
      Some (∅, mkRes 400 (mensaje
        "Faltan datos obligatorios: nombre, descripción, precio y distribuidor.")).
Proof.
  assert ("maquinas" ∈ recursos) as Hr by en_lista.
  assert (("precio", Truthy) ∈ requeridos "maquinas") as Hin.
  { right. right. left. }
  assert (falta Truthy (grua_gratis !! "precio") = true) as Hf by (by vm_compute).
  split; [exact Hr | split; [exact Hin | split; [exact Hf |]]].
  exact (proj1 (crear_incompleto sinCadenas false "maquinas" entorno1 grua_gratis ∅
                  "precio" Truthy Hr Hin Hf)).
Defined.

(** C2, as stated, fails: a location whose [longitud] is [0] has, in the
    claim's reading, a required field missing, yet it is created and stored
    as submitted. *)
Lemma crear_ubicacion_longitud_cero :
  "longitud" ∈ (requeridos "ubicaciones").*1
  ∧ bodega !! "longitud" = Some (JNum 0)
  ∧ truthy (bodega !! "longitud") = false
  ∧ app sinCadenas false entorno1 (mkReq POST "ubicaciones" None bodega) ∅ =
      Some (<[("ubicaciones", "Xk29dLq0") := bodega]> ∅,
            mkRes 201 (json_ (<["id" := JStr "Xk29dLq0"]> bodega))).
Proof.
  assert ("ubicaciones" ∈ recursos) as Hr by en_lista.
  split; [en_lista |]. split; [reflexivity |]. split; [reflexivity |].
  rewrite <- bodega_documento at 2 3.
  apply (crear_recurso sinCadenas false "ubicaciones" entorno1 bodega ∅ Hr).
  - by repeat constructor.
  - discriminate.
  - reflexivity.
Qed.

(** ** Read after create *)

(** A read of a stored document that has no [id] field of its own. *)
Lemma obtener_recurso (StringToNumber : string → option Q)
    (ignoreUndefinedProperties : bool)
    (r : string) (env : Entorno) (id : string) (b : Doc) (s : Store) (doc : Doc) :
  r ∈ recursos → s !! (r, id) = Some doc → doc !! "id" = None →
  app StringToNumber ignoreUndefinedProperties env (mkReq GET r (Some id) b) s =
    Some (s, mkRes 200 (json_ (<["id" := JStr id]> doc))).
Proof.
  intros Hr Hs Hid. rewrite app_GET by done. f_equal.
  rewrite (obtener_200 r _ (mkReq GET r (Some id) b) s id doc eq_refl Hs).
  by rewrite <- insert_union_singleton_r.
Qed.




(** ** Update *)



(** ** Unknown identifiers *)

(** C5.  For every resource and every identifier that is not in its
    collection, read, update and delete answer 404 with the message of the
    resource and leave the store as it is.  The update does so whatever its
    payload: the existence test comes before the range test of a review, so
    an out-of-range rating on an unknown identifier is a 404, not a 400. *)
Theorem desconocido_404 (StringToNumber : string → option Q)
    (ignoreUndefinedProperties : bool)
    (r : string) (env : Entorno) (id : string) (body : Doc) (s : Store) :
  r ∈ recursos →
  s !! (r, id) = None →
  app StringToNumber ignoreUndefinedProperties env (mkReq GET r (Some id) body) s =
    Some (s, mkRes 404 (mensaje (noEncontrado r)))
  ∧ app StringToNumber ignoreUndefinedProperties env (mkReq PUT r (Some id) body) s =
    Some (s, mkRes 404 (mensaje (noEncontrado r)))
  ∧ app StringToNumber ignoreUndefinedProperties env (mkReq DELETE r (Some id) body) s =
    Some (s, mkRes 404 (mensaje (noEncontrado r))).
Proof.
  intros Hr Hs. split; [|split].
  - rewrite app_GET by done. f_equal. by eapply obtener_404.
  - rewrite app_PUT by done. f_equal. by eapply actualizar_404.
  - rewrite app_DELETE by done. f_equal. by eapply eliminar_404.
Qed.

Lemma desconocido_404_witness :
  "resenas" ∈ recursos
  ∧ (∅ : Store) !! ("resenas", "r9") = None
  ∧ fueraDeRango sinCadenas (resena_6 !! "calificacion") = true
  ∧ app sinCadenas false entorno1 (mkReq PUT "resenas" (Some "r9") resena_6) ∅ =
      Some (∅, mkRes 404 (mensaje "Reseña no encontrada."))
  ∧ app sinCadenas false entorno1 (mkReq GET "resenas" (Some "r9") resena_6) ∅ =
      Some (∅, mkRes 404 (mensaje "Reseña no encontrada."))
  ∧ app sinCadenas false entorno1 (mkReq DELETE "resenas" (Some "r9") resena_6) ∅ =
      Some (∅, mkRes 404 (mensaje "Reseña no encontrada.")).
Proof.
  assert ("resenas" ∈ recursos) as Hr by en_lista.
  assert ((∅ : Store) !! ("resenas", "r9") = None) as Hs by reflexivity.
  split; [exact Hr | split; [exact Hs | split; [by vm_compute |]]].
  destruct (desconocido_404 sinCadenas false "resenas" entorno1 "r9" resena_6 ∅ Hr Hs)
    as (Hget & Hput & Hdel).
  split; [exact Hput | split; [exact Hget | exact Hdel]].
Defined.

(** ** Delete *)

(** C6.  For every resource and every existing document, delete answers 200
    with the fixed message of the resource and removes that document and no
    other; on the resulting store a read of the same identifier answers 404,
    and so does a second delete. *)
Theorem eliminar_y_despues (StringToNumber : string → option Q)
    (ignoreUndefinedProperties : bool)
    (r : string) (env env' env'' : Entorno) (id : string) (b b' b'' : Doc)
    (s : Store) (doc : Doc) :
  r ∈ recursos →
  s !! (r, id) = Some doc →
  app StringToNumber ignoreUndefinedProperties env (mkReq DELETE r (Some id) b) s =
    Some (delete (r, id) s, mkRes 200 (mensaje (exitoEliminar r)))
  ∧ delete (r, id) s !! (r, id) = None
  ∧ (∀ k, k ≠ (r, id) → delete (r, id) s !! k = s !! k)
  ∧ app StringToNumber ignoreUndefinedProperties env' (mkReq GET r (Some id) b')
      (delete (r, id) s) =
    Some (delete (r, id) s, mkRes 404 (mensaje (noEncontrado r)))
  ∧ app StringToNumber ignoreUndefinedProperties env'' (mkReq DELETE r (Some id) b'')
      (delete (r, id) s) =
    Some (delete (r, id) s, mkRes 404 (mensaje (noEncontrado r))).
Proof.
  intros Hr Hs.
  assert (delete (r, id) s !! (r, id) = None) as Hgone by apply lookup_delete_eq.
  split; [|split; [done |split; [|split]]].
  - rewrite app_DELETE by done. f_equal. by eapply eliminar_200.
  - intros k Hk. by rewrite lookup_delete_ne.
  - rewrite app_GET by done. f_equal. by eapply obtener_404.
  - rewrite app_DELETE by done. f_equal. by eapply eliminar_404.
Qed.

Lemma eliminar_y_despues_witness :
  "usuarios" ∈ recursos
  ∧ ({[ ("usuarios", "u1") := ana_guardada ]} : Store) !! ("usuarios", "u1")
      = Some ana_guardada
  ∧ app sinCadenas false entorno1 (mkReq DELETE "usuarios" (Some "u1") ∅)
      {[ ("usuarios", "u1") := ana_guardada ]} =
      Some (delete ("usuarios", "u1") {[ ("usuarios", "u1") := ana_guardada ]},
            mkRes 200 (mensaje "Usuario eliminado con éxito"))
  ∧ app sinCadenas false entorno1 (mkReq GET "usuarios" (Some "u1") ∅)
      (delete ("usuarios", "u1") {[ ("usuarios", "u1") := ana_guardada ]}) =
      Some (delete ("usuarios", "u1") {[ ("usuarios", "u1") := ana_guardada ]},
            mkRes 404 (mensaje "Usuario no encontrado."))
  ∧ app sinCadenas false entorno1 (mkReq DELETE "usuarios" (Some "u1") ∅)
      (delete ("usuarios", "u1") {[ ("usuarios", "u1") := ana_guardada ]}) =
      Some (delete ("usuarios", "u1") {[ ("usuarios", "u1") := ana_guardada ]},
            mkRes 404 (mensaje "Usuario no encontrado.")).
Proof.
  assert ("usuarios" ∈ recursos) as Hr by (by left).
  assert (({[ ("usuarios", "u1") := ana_guardada ]} : Store) !! ("usuarios", "u1")
          = Some ana_guardada) as Hs by apply lookup_singleton_eq.
  split; [exact Hr | split; [exact Hs |]].
  destruct (eliminar_y_despues sinCadenas false "usuarios" entorno1 entorno1 entorno1
              "u1" ∅ ∅ ∅ _ ana_guardada Hr Hs) as (Hdel & _ & _ & Hget & Hdel2).
  split; [exact Hdel | split; [exact Hget | exact Hdel2]].
Defined.

(** ** The rating of a review *)

Lemma Qlt_bool_iff (a b : Q) : Qlt_bool a b = true ↔ (a < b)%Q.
Proof.
  unfold Qlt_bool. rewrite negb_true_iff. split.
  - intros H. apply Qnot_le_lt. intros Hle%Qle_bool_iff. congruence.
  - intros H. destruct (Qle_bool b a) eqn:E; [|done].
    apply Qle_bool_iff in E. by apply Qlt_not_le in H.
Qed.

Lemma fueraDeRango_num (StringToNumber : string → option Q) (q : Q) :
  fueraDeRango StringToNumber (Some (JNum q)) = true ↔ (q < 1 ∨ 5 < q)%Q.
Proof.
  unfold fueraDeRango, js_lt, js_gt. simpl.
  rewrite orb_true_iff, !Qlt_bool_iff. done.
Qed.

Lemma enRango_num (StringToNumber : string → option Q) (q : Q) :
  (1 <= q ∧ q <= 5)%Q → fueraDeRango StringToNumber (Some (JNum q)) = false.
Proof.
  intros [H1 H5]. destruct (fueraDeRango _ _) eqn:E; [|done].
  apply fueraDeRango_num in E as [E|E].
  - by apply Qlt_not_le in E.
  - by apply Qlt_not_le in E.
Qed.

Lemma truthy_num (q : Q) : (1 <= q)%Q → truthy (Some (JNum q)) = true.
Proof.
  intros H1. simpl. apply negb_true_iff.
  destruct (Qeq_bool q 0) eqn:E; [|done].
  apply Qeq_bool_iff in E. rewrite E in H1. by apply Qle_not_lt in H1.
Qed.

(** C7.  For the review resource, a numeric rating below 1 or above 5 (0 and
    6 among them) is answered 400 without a write, by create and by the
    update of an existing review; a rating from 1 to 5, both ends included,
    is accepted by create when the other fields pass their tests, and by the
    update of an existing review whose payload carries the other fields. *)
Theorem calificacion_acotada (StringToNumber : string → option Q)
    (ignoreUndefinedProperties : bool)
    (env : Entorno) (id : string) (body : Doc) (s : Store) (q : Q) :
  body !! "calificacion" = Some (JNum q) →
  ((q < 1 ∨ 5 < q)%Q →
     (∃ m, app StringToNumber ignoreUndefinedProperties env
             (mkReq POST "resenas" None body) s = Some (s, mkRes 400 (mensaje m)))
     ∧ (∀ old, s !! ("resenas", id) = Some old →
          app StringToNumber ignoreUndefinedProperties env
            (mkReq PUT "resenas" (Some id) body) s =
          Some (s, mkRes 400 (mensaje "La calificación debe estar entre 1 y 5."))))
  ∧ ((1 <= q ∧ q <= 5)%Q →
     (truthy (body !! "usuarioId") = true → truthy (body !! "productoId") = true →
      is_Some (body !! "comentario") → s !! ("resenas", autoId env) = None →
      ∃ doc : Doc,
        app StringToNumber ignoreUndefinedProperties env
          (mkReq POST "resenas" None body) s =
        Some (<[("resenas", autoId env) := doc]> s,
              mkRes 201 (json_ (<["id" := JStr (autoId env)]> doc)))
        ∧ doc !! "calificacion" = Some (JNum q))
     ∧ (∀ old, s !! ("resenas", id) = Some old →
        is_Some (body !! "usuarioId") → is_Some (body !! "productoId") →
        is_Some (body !! "comentario") →
        ∃ nuevo : Doc,
          app StringToNumber ignoreUndefinedProperties env
            (mkReq PUT "resenas" (Some id) body) s =
          Some (<[("resenas", id) := nuevo]> s,
                mkRes 200 (mensaje "Reseña actualizada con éxito"))
          ∧ nuevo !! "calificacion" = Some (JNum q))).
Proof.
  intros Hq.
  assert ("resenas" ∈ recursos) as Hr by en_lista.
  split.
  - intros Hfuera%(fueraDeRango_num StringToNumber). rewrite <- Hq in Hfuera. split.
    + rewrite app_POST by done.
      destruct (crear_400_rango StringToNumber ignoreUndefinedProperties "resenas"
                  (requeridos "resenas") (conFechaRegistro "resenas")
                  (mensajeFaltan "resenas") env (mkReq POST "resenas" None body) s Hfuera)
        as [m Hm].
      exists m. f_equal. exact Hm.
    + intros old Hold. rewrite app_PUT by done. f_equal.
      by apply (actualizar_400 StringToNumber ignoreUndefinedProperties "resenas"
                  _ _ _ (mkReq PUT "resenas" (Some id) body) s id old).
  - intros Hdentro.
    pose proof (enRango_num StringToNumber q Hdentro) as Hrango. rewrite <- Hq in Hrango.
    pose proof (truthy_num q (proj1 Hdentro)) as Htq. rewrite <- Hq in Htq.
    split.
    + intros Hu Hp Hc Hfresh. eexists. split.
      * apply crear_recurso; [done | | done | done].
        change (requeridos "resenas") with
          [("usuarioId", Truthy); ("productoId", Truthy); ("calificacion", Truthy);
           ("comentario", Definido)].
        repeat constructor; simpl; [by rewrite Hu | by rewrite Hp | by rewrite Htq |].
        by destruct Hc as [v ->].
      * rewrite (proj1 (documento_campos "resenas" env body Hr)) by en_lista. exact Hq.
    + intros old Hold Hu Hp Hc. eexists. split.
      * rewrite app_PUT by done. f_equal.
        apply (actualizar_200 StringToNumber ignoreUndefinedProperties "resenas"
                 _ _ _ _ (mkReq PUT "resenas" (Some id) body) s id old eq_refl Hold).
        -- simpl. by rewrite Hrango.
        -- right. intros f Hf.
           change (f ∈ ["usuarioId"; "productoId"; "calificacion"; "comentario"]) in Hf.
           repeat (apply elem_of_cons in Hf; destruct Hf as [->|Hf]); simpl;
             [done | done | by rewrite Hq | done | by apply elem_of_nil in Hf].
      * rewrite merge_lookup, decide_True by en_lista. simpl. by rewrite Hq.
Qed.

Lemma resena_campos (q : Q) :
  resena q !! "calificacion" = Some (JNum q)
  ∧ truthy (resena q !! "usuarioId") = true
  ∧ truthy (resena q !! "productoId") = true
  ∧ is_Some (resena q !! "comentario").
Proof. repeat split; try reflexivity. by eexists. Qed.

Lemma una_resena_lookup :
  una_resena !! ("resenas", "r1") = Some (resena 3)
  ∧ una_resena !! ("resenas", autoId entorno1) = None.
Proof.
  split; [apply lookup_singleton_eq |]. by apply lookup_singleton_ne.
Qed.

Lemma calificacion_acotada_witness :
  (* 0 and 6 are refused, by create and by update *)
  ((∃ m, app sinCadenas false entorno1 (mkReq POST "resenas" None (resena 0)) una_resena
          = Some (una_resena, mkRes 400 (mensaje m)))
   ∧ app sinCadenas false entorno1 (mkReq PUT "resenas" (Some "r1") (resena 0)) una_resena
     = Some (una_resena, mkRes 400 (mensaje "La calificación debe estar entre 1 y 5.")))
  ∧ ((∃ m, app sinCadenas false entorno1 (mkReq POST "resenas" None (resena 6)) una_resena
          = Some (una_resena, mkRes 400 (mensaje m)))
   ∧ app sinCadenas false entorno1 (mkReq PUT "resenas" (Some "r1") (resena 6)) una_resena
     = Some (una_resena, mkRes 400 (mensaje "La calificación debe estar entre 1 y 5.")))
  (* 1 and 5 are accepted, by create and by update *)
  ∧ ((∃ doc : Doc,
        app sinCadenas false entorno1 (mkReq POST "resenas" None (resena 1)) una_resena
        = Some (<[("resenas", "Xk29dLq0") := doc]> una_resena,
                mkRes 201 (json_ (<["id" := JStr "Xk29dLq0"]> doc)))
        ∧ doc !! "calificacion" = Some (JNum 1))
   ∧ (∃ nuevo : Doc,
        app sinCadenas false entorno1 (mkReq PUT "resenas" (Some "r1") (resena 1)) una_resena
        = Some (<[("resenas", "r1") := nuevo]> una_resena,
                mkRes 200 (mensaje "Reseña actualizada con éxito"))
        ∧ nuevo !! "calificacion" = Some (JNum 1)))
  ∧ ((∃ doc : Doc,
        app sinCadenas false entorno1 (mkReq POST "resenas" None (resena 5)) una_resena
        = Some (<[("resenas", "Xk29dLq0") := doc]> una_resena,
                mkRes 201 (json_ (<["id" := JStr "Xk29dLq0"]> doc)))
        ∧ doc !! "calificacion" = Some (JNum 5))
   ∧ (∃ nuevo : Doc,
        app sinCadenas false entorno1 (mkReq PUT "resenas" (Some "r1") (resena 5)) una_resena
        = Some (<[("resenas", "r1") := nuevo]> una_resena,
                mkRes 200 (mensaje "Reseña actualizada con éxito"))
        ∧ nuevo !! "calificacion" = Some (JNum 5))).
Proof.
  destruct una_resena_lookup as [Hhay Hlibre].
  assert (∀ q, (q < 1 ∨ 5 < q)%Q →
    (∃ m, app sinCadenas false entorno1 (mkReq POST "resenas" None (resena q)) una_resena
          = Some (una_resena, mkRes 400 (mensaje m)))
    ∧ app sinCadenas false entorno1 (mkReq PUT "resenas" (Some "r1") (resena q)) una_resena
      = Some (una_resena, mkRes 400 (mensaje "La calificación debe estar entre 1 y 5.")))
    as Hfuera.
  { intros q Hq. destruct (resena_campos q) as (Hc & _).
    destruct (calificacion_acotada sinCadenas false entorno1 "r1" (resena q) una_resena q Hc)
      as [H _].
    destruct (H Hq) as [Hpost Hput]. split; [exact Hpost | exact (Hput _ Hhay)]. }
  assert (∀ q, (1 <= q ∧ q <= 5)%Q →
    (∃ doc : Doc,
        app sinCadenas false entorno1 (mkReq POST "resenas" None (resena q)) una_resena
        = Some (<[("resenas", "Xk29dLq0") := doc]> una_resena,
                mkRes 201 (json_ (<["id" := JStr "Xk29dLq0"]> doc)))
        ∧ doc !! "calificacion" = Some (JNum q))
    ∧ (∃ nuevo : Doc,
        app sinCadenas false entorno1 (mkReq PUT "resenas" (Some "r1") (resena q)) una_resena
        = Some (<[("resenas", "r1") := nuevo]> una_resena,
                mkRes 200 (mensaje "Reseña actualizada con éxito"))
        ∧ nuevo !! "calificacion" = Some (JNum q)))
    as Hdentro.
  { intros q Hq. destruct (resena_campos q) as (Hc & Hu & Hp & Hco).
    destruct (calificacion_acotada sinCadenas false entorno1 "r1" (resena q) una_resena q Hc)
      as [_ H].
    destruct (H Hq) as [Hpost Hput]. split.
    - exact (Hpost Hu Hp Hco Hlibre).
    - exact (Hput _ Hhay (truthy_defined _ Hu) (truthy_defined _ Hp) Hco). }
  split; [apply Hfuera; left; reflexivity |].
  split; [apply Hfuera; right; reflexivity |].
  split; [apply Hdentro; split; discriminate |].
  apply Hdentro; split; discriminate.
Defined.

(** ** The coordinates of a location *)

(** C8.  For the location resource, with [nombre] and [direccion] truthy and
    a free identifier, create succeeds with 201 whenever [latitud] and
    [longitud] are present, whatever their values, zero included, and stores
    them as given; it answers 400 exactly when one of the two is absent. *)
Theorem ubicacion_coordenadas (StringToNumber : string → option Q)
    (ignoreUndefinedProperties : bool) (env : Entorno) (body : Doc) (s : Store) :
  truthy (body !! "nombre") = true →
  truthy (body !! "direccion") = true →
  s !! ("ubicaciones", autoId env) = None →
  (is_Some (body !! "latitud") → is_Some (body !! "longitud") →
     ∃ doc : Doc,
       app StringToNumber ignoreUndefinedProperties env
         (mkReq POST "ubicaciones" None body) s =
       Some (<[("ubicaciones", autoId env) := doc]> s,
             mkRes 201 (json_ (<["id" := JStr (autoId env)]> doc)))
       ∧ doc !! "latitud" = body !! "latitud"
       ∧ doc !! "longitud" = body !! "longitud")
  ∧ (body !! "latitud" = None ∨ body !! "longitud" = None →
     app StringToNumber ignoreUndefinedProperties env
       (mkReq POST "ubicaciones" None body) s =
     Some (s, mkRes 400 (mensaje
       "Faltan datos obligatorios: nombre, direccion, latitud, longitud."))).
Proof.
  intros Hn Hd Hfresh.
  assert ("ubicaciones" ∈ recursos) as Hr by en_lista.
  split.
  - intros [lat Hlat] [lon Hlon]. eexists. split; [|split].
    + apply crear_recurso; [done | | discriminate | done].
      change (requeridos "ubicaciones") with
        [("nombre", Truthy); ("direccion", Truthy); ("latitud", Definido);
         ("longitud", Definido)].
      repeat constructor; simpl;
        [by rewrite Hn | by rewrite Hd | by rewrite Hlat | by rewrite Hlon].
    + by rewrite (proj1 (documento_campos "ubicaciones" env body Hr)) by en_lista.
    + by rewrite (proj1 (documento_campos "ubicaciones" env body Hr)) by en_lista.
  - intros Hfalta. rewrite app_POST by done. f_equal.
    destruct Hfalta as [Hlat|Hlon].
    + apply (crear_400_faltan _ _ _ _ _ _ _ _ _ _ "latitud" Definido); [en_lista |].
      simpl. by rewrite Hlat.
    + apply (crear_400_faltan _ _ _ _ _ _ _ _ _ _ "longitud" Definido); [en_lista |].
      simpl. by rewrite Hlon.
Qed.

Lemma ubicacion_coordenadas_witness :
  truthy (origen !! "nombre") = true
  ∧ truthy (origen !! "direccion") = true
  ∧ (∅ : Store) !! ("ubicaciones", autoId entorno1) = None
  ∧ origen !! "latitud" = Some (JNum 0)
  ∧ origen !! "longitud" = Some (JNum 0)
  ∧ ∃ doc : Doc,
      app sinCadenas false entorno1 (mkReq POST "ubicaciones" None origen) ∅ =
        Some (<[("ubicaciones", "Xk29dLq0") := doc]> ∅,
              mkRes 201 (json_ (<["id" := JStr "Xk29dLq0"]> doc)))
      ∧ doc !! "latitud" = Some (JNum 0)
      ∧ doc !! "longitud" = Some (JNum 0).
Proof.
  assert (truthy (origen !! "nombre") = true) as Hn by reflexivity.
  assert (truthy (origen !! "direccion") = true) as Hd by reflexivity.
  assert ((∅ : Store) !! ("ubicaciones", autoId entorno1) = None) as He by reflexivity.
  assert (origen !! "latitud" = Some (JNum 0)) as Hlat by reflexivity.
  assert (origen !! "longitud" = Some (JNum 0)) as Hlon by reflexivity.
  split; [exact Hn | split; [exact Hd | split; [exact He |]]].
  split; [exact Hlat | split; [exact Hlon |]].
  destruct (ubicacion_coordenadas sinCadenas false entorno1 origen ∅ Hn Hd He) as [H _].
  destruct (H (mk_is_Some _ _ Hlat) (mk_is_Some _ _ Hlon)) as (doc & Happ & Hdlat & Hdlon).
  exists doc. split; [exact Happ |]. split.
  - exact (eq_trans Hdlat Hlat).
  - exact (eq_trans Hdlon Hlon).
Defined.

(** ** Update does not test presence *)

Lemma forallb_false_elem {A} (p : A → bool) (l : list A) :
  forallb p l = false → ∃ x, x ∈ l ∧ p x = false.
Proof.
  induction l as [|a l IH]; simpl; [done |].
  destruct (p a) eqn:Ha; simpl.
  - intros (x & Hx & Hp)%IH. exists x. split; [by right | done].
  - intros _. exists a. split; [by left | done].
Qed.

Lemma sinUndefined_shorthand_forallb (campos : list string) (body : Doc) :
  Firestore.sinUndefined (shorthand campos body) =
    forallb (λ f, negb (isUndefined (body !! f))) campos.
Proof.
  destruct (forallb _ campos) eqn:E.
  - apply sinUndefined_shorthand. intros f Hf%list_elem_of_In.
    rewrite forallb_forall in E. specialize (E f Hf).
    destruct (body !! f); [by eexists | done].
  - apply bool_decide_eq_false. intros Hall.
    apply forallb_false_elem in E as (f & Hf & Hp).
    destruct (Hall f (body !! f)) as [v Hv].
    + rewrite shorthand_lookup. by rewrite decide_True.
    + by rewrite Hv in Hp.
Qed.




(** ** The two registrations of [POST /pagos] *)

(** The entry that [primera] returns matches the request, and no entry
    before it does. *)
Lemma primera_spec (req : Request) (rs : list Ruta) (k i : nat) (h : Handler) :
  primera req rs k = Some (i, h) →
  ∃ j r, i = (k + j)%nat ∧ rs !! j = Some r ∧ r_handler r = h
         ∧ coincide r req = true
         ∧ ∀ j' r', (j' < j)%nat → rs !! j' = Some r' → coincide r' req = false.
Proof.
  revert k. induction rs as [|r rs IH]; intros k; simpl; [done |].
  destruct (coincide r req) eqn:Hc.
  - intros [= <- <-]. exists 0%nat, r.
    split; [lia |]. split; [done |]. split; [done |]. split; [done |].
    intros j' r' Hlt. lia.
  - intros (j & r0 & -> & Hj & Hh & Hc0 & Hmin)%IH.
    exists (S j), r0. split; [lia |]. split; [done |]. split; [done |]. split; [done |].
    intros [|j'] r' Hlt; simpl.
    + by intros [= <-].
    + apply Hmin. lia.
Qed.

(** C10.  [POST /pagos] is registered twice, at positions 13 and 33 of the
    router stack, with the field sets [alquilerId, monto, metodo, fecha_pago]
    and [usuarioId, monto, fecha, metodo].  Every [POST /pagos] request is
    dispatched to the first registration, and no request at all reaches the
    second.  So a payload without [alquilerId] is answered 400 with the
    message of the first registration and nothing is inserted, even when it
    carries all four fields of the second. *)
Theorem pagos_primer_registro (StringToNumber : string → option Q)
    (ignoreUndefinedProperties : bool) (env : Entorno) (body : Doc) (s : Store) :
  body !! "alquilerId" = None →
  rutas !! 13%nat =
    Some (app_post "pagos"
            (Crear "pagos"
               [("alquilerId", Truthy); ("monto", Truthy); ("metodo", Truthy);
                ("fecha_pago", Truthy)]
               false false
               "Faltan datos obligatorios: alquilerId, monto, metodo, fecha_pago."))
  ∧ rutas !! 33%nat =
    Some (app_post "pagos"
            (Crear "pagos"
               [("usuarioId", Truthy); ("monto", Truthy); ("fecha", Truthy);
                ("metodo", Truthy)]
               false false
               "Faltan datos obligatorios: usuarioId, monto, fecha, metodo."))
  ∧ (∀ b, ∃ h, despachar (mkReq POST "pagos" None b) = Some (13%nat, h)
               ∧ rutas !! 13%nat = Some (app_post "pagos" h))
  ∧ (∀ req h, despachar req ≠ Some (33%nat, h))
  ∧ app StringToNumber ignoreUndefinedProperties env (mkReq POST "pagos" None body) s =
      Some (s, mkRes 400 (mensaje
        "Faltan datos obligatorios: alquilerId, monto, metodo, fecha_pago.")).
Proof.
  intros Hsin.
  split; [reflexivity |]. split; [reflexivity |]. split; [|split].
  - intros b. eexists. split; reflexivity.
  - intros req h Hd. unfold despachar in Hd.
    apply primera_spec in Hd as (j & r & Hj & Hr & _ & Hc & Hmin).
    simpl in Hj. subst j.
    assert (r = app_post "pagos" (r_handler r)) as Hr'.
    { change (rutas !! 33%nat) with
        (Some (app_post "pagos"
           (Crear "pagos"
              [("usuarioId", Truthy); ("monto", Truthy); ("fecha", Truthy);
               ("metodo", Truthy)]
              false false
              "Faltan datos obligatorios: usuarioId, monto, fecha, metodo."))) in Hr.
      by injection Hr as <-. }
    rewrite Hr' in Hc.
    specialize (Hmin 13%nat _ ltac:(lia) eq_refl).
    unfold coincide in Hc, Hmin. simpl in Hc, Hmin. congruence.
  - assert ("pagos" ∈ recursos) as Hr by en_lista.
    rewrite app_POST by done. f_equal.
    apply (crear_400_faltan _ _ _ _ _ _ _ _ _ _ "alquilerId" Truthy); [by left |].
    simpl. by rewrite Hsin.
Qed.

Lemma pagos_primer_registro_witness :
  pago_por_usuario !! "alquilerId" = None
  ∧ Forall (λ f, truthy (pago_por_usuario !! f) = true)
      ["usuarioId"; "monto"; "fecha"; "metodo"]
  ∧ app sinCadenas false entorno1 (mkReq POST "pagos" None pago_por_usuario) ∅ =
      Some (∅, mkRes 400 (mensaje
        "Faltan datos obligatorios: alquilerId, monto, metodo, fecha_pago.")).
Proof.
  assert (pago_por_usuario !! "alquilerId" = None) as Hsin by reflexivity.
  split; [exact Hsin |]. split; [repeat constructor |].
  exact (proj2 (proj2 (proj2 (proj2
    (pagos_primer_registro sinCadenas false entorno1 pago_por_usuario ∅ Hsin))))).
Defined.

(** * Further properties

    Properties of the whole router stack and of every handler, beyond the
    claims above. *)

(** ** Which requests are served, and by which registration *)

Lemma coincide_true (r : Ruta) (req : Request) :
  coincide r req = true →
  r_metodo r = metodo req ∧ r_recurso r = recurso req
  ∧ r_conId r = match params_id req with Some _ => true | None => false end.
Proof.
  unfold coincide. rewrite !andb_true_iff. intros [[Hm Hr] Hi].
  split; [by destruct (r_metodo r), (metodo req) |].
  split; [by apply String.eqb_eq | by apply Bool.eqb_prop].
Qed.

(** Every registration is the root route, a create route without [/:id], or
    a read, update or delete route with [/:id], of one of the ten resources. *)
Lemma rutas_forma :
  Forall (λ r,
    (r_metodo r = GET ∧ r_recurso r = "" ∧ r_conId r = false)
    ∨ (r_recurso r ∈ recursos
       ∧ ((r_metodo r = POST ∧ r_conId r = false)
          ∨ (r_metodo r ≠ POST ∧ r_conId r = true)))) rutas.
Proof.
  unfold rutas.
  repeat (apply Forall_cons; split;
          [ first [ by left
                  | right; split; [en_lista | first [by left | by right]] ] |]).
  constructor.
Qed.

Lemma despachar_servida (req : Request) :
  is_Some (despachar req) →
  (metodo req = GET ∧ recurso req = "" ∧ params_id req = None)
  ∨ (recurso req ∈ recursos
     ∧ ((metodo req = POST ∧ params_id req = None)
        ∨ (metodo req ≠ POST ∧ is_Some (params_id req)))).
Proof.
  intros [[i h] Hd]. unfold despachar in Hd.
  apply primera_spec in Hd as (j & r & _ & Hj & _ & Hc & _).
  apply coincide_true in Hc as (Hm & Hr & Hi).
  pose proof rutas_forma as Hforma. rewrite Forall_forall in Hforma.
  specialize (Hforma r (list_elem_of_lookup_2 _ _ _ Hj)).
  rewrite Hm, Hr, Hi in Hforma.
  destruct Hforma as [(? & ? & ?) | (? & [[? ?] | [? ?]])].
  - left. by destruct (params_id req).
  - right. split; [done |]. left. by destruct (params_id req).
  - right. split; [done |]. right. by destruct (params_id req).
Qed.



(** A registration behind an earlier one with the same method and path is
    never reached. *)
Lemma ruta_tapada (i j : nat) (r r' : Ruta) :
  (j < i)%nat → rutas !! i = Some r → rutas !! j = Some r' →
  r_metodo r = r_metodo r' → r_recurso r = r_recurso r' → r_conId r = r_conId r' →
  ∀ req h, despachar req ≠ Some (i, h).
Proof.
  intros Hlt Hi Hj Hm Hr Hc req h Hd. unfold despachar in Hd.
  apply primera_spec in Hd as (i' & r0 & Hi' & Hr0 & _ & Hc0 & Hmin).
  simpl in Hi'. subst i'. rewrite Hi in Hr0. injection Hr0 as <-.
  specialize (Hmin j r' Hlt Hj).
  unfold coincide in Hc0, Hmin. rewrite Hm, Hr, Hc in Hc0. congruence.
Qed.

(** Every other registration is reached by the request its pattern
    describes. *)
Lemma ruta_viva (i : nat) (r : Ruta) :
  rutas !! i = Some r → i ∉ [33; 34; 35; 36]%nat →
  despachar (peticionDe r) = Some (i, r_handler r).
Proof.
  intros Hi Hviva. unfold rutas in Hi.
  do 45 (destruct i as [|i];
         [ simpl in Hi; injection Hi as <-;
           first [reflexivity | exfalso; apply Hviva; en_lista] |]).
  done.
Qed.

(** X2.  Of the 45 registrations, the four of the second [/pagos] block
    (positions 33 to 36: its [POST], [GET], [PUT] and [DELETE]) are the ones
    no request ever reaches; each of the other 41 is reached by some
    request. *)
Theorem rutas_muertas (i : nat) (r : Ruta) :
  rutas !! i = Some r →
  (∃ req h, despachar req = Some (i, h)) ↔ i ∉ [33; 34; 35; 36]%nat.
Proof.
  intros Hi. split.
  - intros (req & h & Hd) Hin.
    repeat (apply elem_of_cons in Hin; destruct Hin as [->|Hin]);
      [ | | | | by apply elem_of_nil in Hin].
    + unfold rutas in Hi. simpl in Hi. injection Hi as <-.
      by eapply (ruta_tapada 33 13 _ _ ltac:(lia) eq_refl eq_refl).
    + unfold rutas in Hi. simpl in Hi. injection Hi as <-.
      by eapply (ruta_tapada 34 14 _ _ ltac:(lia) eq_refl eq_refl).
    + unfold rutas in Hi. simpl in Hi. injection Hi as <-.
      by eapply (ruta_tapada 35 15 _ _ ltac:(lia) eq_refl eq_refl).
    + unfold rutas in Hi. simpl in Hi. injection Hi as <-.
      by eapply (ruta_tapada 36 16 _ _ ltac:(lia) eq_refl eq_refl).
  - intros Hviva. exists (peticionDe r), (r_handler r). by apply ruta_viva.
Qed.

Lemma rutas_muertas_witness :
  rutas !! 35%nat =
    Some (app_put_id "pagos"
            (Actualizar "pagos" ["usuarioId"; "monto"; "fecha"; "metodo"] false
               "Pago no encontrado." "Pago actualizado con éxito"))
  ∧ ((∃ req h, despachar req = Some (35%nat, h)) ↔ 35%nat ∉ [33; 34; 35; 36]%nat).
Proof.
  assert (rutas !! 35%nat =
    Some (app_put_id "pagos"
            (Actualizar "pagos" ["usuarioId"; "monto"; "fecha"; "metodo"] false
               "Pago no encontrado." "Pago actualizado con éxito"))) as Hi
    by reflexivity.
  split; [exact Hi |]. exact (rutas_muertas 35 _ Hi).
Defined.

(** ** What a request can do to the store *)

Lemma conRango_resenas r :
  r ∈ recursos → conRango r = bool_decide (r = "resenas").
Proof. intros H. por_recurso H; reflexivity. Qed.

Section HandlerCases.
Variable StringToNumber : string → option Q.
Variable ignoreUndefinedProperties : bool.

#[local] Abbreviation crear := (crear StringToNumber ignoreUndefinedProperties).
#[local] Abbreviation actualizar := (actualizar StringToNumber ignoreUndefinedProperties).

(** A create either answers 400 or 500 and leaves the store, or passes its
    tests, finds the identifier free, stores the new object and answers
    201. *)
Lemma crear_casos c campos rango fr faltan env req s :
  (∃ res, crear c campos rango fr faltan env req s = (s, res)
          ∧ (status res = 400 ∨ status res = 500))
  ∨ (existsb (λ fp, falta fp.2 (body req !! fp.1)) campos = false
     ∧ rango && fueraDeRango StringToNumber (body req !! "calificacion") = false
     ∧ s !! (c, autoId env) = None
     ∧ crear c campos rango fr faltan env req s =
         (<[(c, autoId env) := stringify (objetoNuevo campos.*1 fr env (body req))]> s,
          mkRes 201 (json_ (stringify
            (objetoNuevo campos.*1 fr env (body req)
             ∪ {[ "id" := Some (JStr (autoId env)) ]}))))).
Proof.
  unfold crear, Firestore.add, Firestore.fields, Firestore.get.
  destruct (existsb _ campos); [left; eexists; split; [done | by left] |].
  destruct (rango && _); [left; eexists; split; [done | by left] |].
  destruct (ignoreUndefinedProperties || _);
    [| left; eexists; split; [done | by right]].
  destruct (s !! (c, autoId env)) eqn:Hs;
    [left; eexists; split; [done | by right] |].
  right. done.
Qed.

(** The answer of an update, branch by branch. *)
Lemma actualizar_forma c campos rango ne ok req s id :
  params_id req = Some id →
  actualizar c campos rango ne ok req s =
    match s !! (c, id) with
    | None => (s, mkRes 404 (mensaje ne))
    | Some old =>
        if rango && fueraDeRango StringToNumber (body req !! "calificacion")
        then (s, mkRes 400 (mensaje fueraDeRangoMsg))
        else if ignoreUndefinedProperties
                || forallb (λ f, negb (isUndefined (body req !! f))) campos
        then (<[(c, id) := stringify (shorthand campos (body req)) ∪ old]> s,
              mkRes 200 (mensaje ok))
        else (s, errorInterno)
    end.
Proof.
  intros Hid. unfold actualizar, Firestore.update, Firestore.fields, Firestore.get.
  rewrite Hid, sinUndefined_shorthand_forallb.
  destruct (s !! (c, id)); [|done].
  destruct (rango && _); [done |].
  by destruct (ignoreUndefinedProperties || _).
Qed.

(** The answer of a delete, branch by branch. *)
Lemma eliminar_forma c ne ok req s id :
  params_id req = Some id →
  eliminar c ne ok req s =
    match s !! (c, id) with
    | None => (s, mkRes 404 (mensaje ne))
    | Some _ => (base.delete (c, id) s, mkRes 200 (mensaje ok))
    end.
Proof. intros Hid. unfold eliminar, Firestore.get. by rewrite Hid. Qed.

(** A read leaves the store alone. *)
Lemma obtener_almacen c ne req s : (obtener c ne req s).1 = s.
Proof.
  unfold obtener. destruct (params_id req); [|done].
  by destruct (Firestore.get s c _).
Qed.

(** A served request runs the root handler or one of the four handlers of
    its resource. *)
Lemma app_casos env req s s' res :
  app StringToNumber ignoreUndefinedProperties env req s = Some (s', res) →
  (metodo req = GET ∧ recurso req = "" ∧ params_id req = None ∧ raiz s = (s', res))
  ∨ (recurso req ∈ recursos
     ∧ ((metodo req = POST ∧ params_id req = None
         ∧ crear (recurso req) (requeridos (recurso req)) (conRango (recurso req))
             (conFechaRegistro (recurso req)) (mensajeFaltan (recurso req))
             env req s = (s', res))
        ∨ (∃ id, params_id req = Some id
           ∧ ((metodo req = GET
               ∧ obtener (recurso req) (noEncontrado (recurso req)) req s = (s', res))
              ∨ (metodo req = PUT
                 ∧ actualizar (recurso req) ((requeridos (recurso req)).*1)
                     (conRango (recurso req)) (noEncontrado (recurso req))
                     (exitoActualizar (recurso req)) req s = (s', res))
              ∨ (metodo req = DELETE
                 ∧ eliminar (recurso req) (noEncontrado (recurso req))
                     (exitoEliminar (recurso req)) req s = (s', res)))))).
Proof.
  intros H. destruct req as [m r id b].
  assert (is_Some (despachar (mkReq m r id b))) as Hs.
  { unfold app in H. destruct (despachar _) as [[? ?]|]; [by eexists | done]. }
  apply despachar_servida in Hs. simpl in Hs. simpl.
  destruct Hs as [(-> & -> & ->) | (Hr & [(-> & ->) | (Hm & [i ->])])].
  - left. repeat split; try done.
    change (Some (raiz s) = Some (s', res)) in H. congruence.
  - right. split; [done |]. left. rewrite app_POST in H by done.
    repeat split; try done. congruence.
  - right. split; [done |]. right. exists i. split; [done |].
    destruct m; [| done | |].
    + left. rewrite app_GET in H by done. split; [done | congruence].
    + right. left. rewrite app_PUT in H by done. split; [done | congruence].
    + right. right. rewrite app_DELETE in H by done. split; [done | congruence].
Qed.
End HandlerCases.

(** The four things a served request can do to the store. *)
Lemma app_efecto (StringToNumber : string → option Q) (ignoreUndefinedProperties : bool)
    (env : Entorno) (req : Request) (s s' : Store) (res : Response) :
  app StringToNumber ignoreUndefinedProperties env req s = Some (s', res) →
  (s' = s ∧ status res ≠ 201 ∧ (status res = 200 → metodo req = GET))
  ∨ (metodo req = POST ∧ status res = 201 ∧ s !! objetivo env req = None
     ∧ ∃ d, s' = <[objetivo env req := d]> s)
  ∨ (metodo req = PUT ∧ status res = 200
     ∧ ∃ old d, s !! objetivo env req = Some old ∧ s' = <[objetivo env req := d]> s)
  ∨ (metodo req = DELETE ∧ status res = 200
     ∧ ∃ old, s !! objetivo env req = Some old ∧ s' = delete (objetivo env req) s).
Proof.
  intros H. apply app_casos in H.
  destruct H as [(Hm & _ & _ & H)
                | (_ & [(Hm & _ & H) | (id & Hid & [(Hm & H) | [(Hm & H) | (Hm & H)]])])];
    unfold objetivo; rewrite Hm; rewrite ?Hid; simpl.
  - left. unfold raiz in H. injection H as <- <-. done.
  - destruct (crear_casos StringToNumber ignoreUndefinedProperties (recurso req)
                (requeridos (recurso req)) (conRango (recurso req))
                (conFechaRegistro (recurso req)) (mensajeFaltan (recurso req)) env req s)
      as [(res0 & Heq & Hst) | (_ & _ & Hlibre & Heq)];
      rewrite Heq in H; injection H as <- <-.
    + left. split; [done |]. destruct Hst as [-> | ->]; done.
    + right. left. repeat split; try done. by eexists.
  - left. unfold obtener in H. rewrite Hid in H.
    destruct (Firestore.get s (recurso req) id); injection H as <- <-; done.
  - rewrite (actualizar_forma _ _ _ _ _ _ _ _ _ id Hid) in H.
    destruct (s !! (recurso req, id)) as [old|] eqn:Hold.
    + destruct (conRango (recurso req) && _).
      { injection H as <- <-. by left. }
      destruct (ignoreUndefinedProperties || _); injection H as <- <-.
      * right. right. left. repeat split; try done. by eexists _, _.
      * by left.
    + injection H as <- <-. by left.
  - rewrite (eliminar_forma _ _ _ _ _ id Hid) in H.
    destruct (s !! (recurso req, id)) as [old|] eqn:Hold; injection H as <- <-.
    + right. right. right. repeat split; try done. by eexists.
    + by left.
Qed.

(** Closed runs of the application, for the examples below. *)
Lemma ejemplo_crear :
  app sinCadenas false entorno1 (mkReq POST "usuarios" None ana_con_telefono) ∅ =
    Some (<[("usuarios", "Xk29dLq0") := ana_guardada]> ∅,
          mkRes 201 (json_ (<["id" := JStr "Xk29dLq0"]> ana_guardada))).
Proof.
  rewrite <- ana_con_telefono_documento.
  apply (crear_recurso sinCadenas false "usuarios" entorno1 ana_con_telefono ∅).
  - by left.
  - by repeat constructor.
  - discriminate.
  - reflexivity.
Qed.

Lemma ejemplo_crear_400 :
  app sinCadenas false entorno1 (mkReq POST "usuarios" None ana_sin_nombre) una_usuaria =
    Some (una_usuaria,
          mkRes 400 (mensaje "Faltan datos obligatorios: nombre, correo y rol.")).
Proof.
  rewrite app_POST by (by left). apply (f_equal Some).
  apply (crear_400_faltan _ _ _ _ _ _ _ _ _ _ "nombre" Truthy); [by left | reflexivity].
Qed.

Lemma ejemplo_actualizar :
  app sinCadenas false entorno1 (mkReq PUT "usuarios" (Some "u1") ana_sin_nombre)
    una_usuaria =
    Some (<[("usuarios", "u1") := ana_renombrada]> una_usuaria,
          mkRes 200 (mensaje "Usuario actualizado con éxito")).
Proof.
  assert (∀ f, f ∈ ["nombre"; "correo"; "rol"] → is_Some (ana_sin_nombre !! f)) as Hdef.
  { intros f Hf.
    repeat (apply elem_of_cons in Hf; destruct Hf as [->|Hf]);
      [eexists; reflexivity .. | by apply elem_of_nil in Hf]. }
  rewrite app_PUT by (by left). apply (f_equal Some).
  rewrite <- ana_fusion.
  apply (actualizar_200 sinCadenas false "usuarios" _ _ _ _
           (mkReq PUT "usuarios" (Some "u1") ana_sin_nombre) una_usuaria "u1"
           ana_guardada eq_refl).
  - apply lookup_singleton_eq.
  - reflexivity.
  - right. exact Hdef.
Qed.

Lemma ejemplo_eliminar :
  app sinCadenas false entorno1 (mkReq DELETE "usuarios" (Some "u1") ∅) una_usuaria =
    Some (delete ("usuarios", "u1") una_usuaria,
          mkRes 200 (mensaje "Usuario eliminado con éxito")).
Proof.
  rewrite app_DELETE by (by left). apply (f_equal Some).
  apply (eliminar_200 "usuarios" _ _ (mkReq DELETE "usuarios" (Some "u1") ∅)
           una_usuaria "u1" ana_guardada eq_refl).
  apply lookup_singleton_eq.
Qed.

(** X3.  A request changes the store only when it succeeds as a write: a
    create answered 201, or an update or delete answered 200.  Every other
    answer (400, 404, 500, and every read) leaves the store as it was. *)
Theorem escribe_solo_con_exito (StringToNumber : string → option Q)
    (ignoreUndefinedProperties : bool)
    (env : Entorno) (req : Request) (s s' : Store) (res : Response) :
  app StringToNumber ignoreUndefinedProperties env req s = Some (s', res) →
  s' = s
  ∨ (metodo req = POST ∧ status res = 201)
  ∨ ((metodo req = PUT ∨ metodo req = DELETE) ∧ status res = 200).
Proof.
  intros H. apply app_efecto in H.
  destruct H as [(-> & _) | [(Hm & Hst & _) | [(Hm & Hst & _) | (Hm & Hst & _)]]].
  - by left.
  - right. by left.
  - right. right. split; [by left | done].
  - right. right. split; [by right | done].
Qed.

Lemma escribe_solo_con_exito_witness :
  app sinCadenas false entorno1 (mkReq POST "usuarios" None ana_sin_nombre) una_usuaria =
    Some (una_usuaria,
          mkRes 400 (mensaje "Faltan datos obligatorios: nombre, correo y rol."))
  ∧ (una_usuaria = una_usuaria
     ∨ (POST = POST ∧ 400 = 201)
     ∨ ((POST = PUT ∨ POST = DELETE) ∧ 400 = 200)).
Proof.
  split; [exact ejemplo_crear_400 |].
  exact (escribe_solo_con_exito sinCadenas false entorno1
           (mkReq POST "usuarios" None ana_sin_nombre) una_usuaria una_usuaria _
           ejemplo_crear_400).
Defined.

(** X4.  A request touches at most one document: the one in the collection
    named by its path, under the identifier of its path (or, for a create,
    the identifier the store draws).  Every other document, in that
    collection and in every other, is left as it was. *)
Theorem huella (StringToNumber : string → option Q) (ignoreUndefinedProperties : bool)
    (env : Entorno) (req : Request) (s s' : Store) (res : Response) :
  app StringToNumber ignoreUndefinedProperties env req s = Some (s', res) →
  ∀ k, k ≠ objetivo env req → s' !! k = s !! k.
Proof.
  intros H k Hk. apply app_efecto in H.
  destruct H as [(-> & _) | [(_ & _ & _ & d & ->)
                | [(_ & _ & old & d & _ & ->) | (_ & _ & old & _ & ->)]]].
  - done.
  - by rewrite lookup_insert_ne.
  - by rewrite lookup_insert_ne.
  - by rewrite lookup_delete_ne.
Qed.

Lemma huella_witness :
  app sinCadenas false entorno1 (mkReq PUT "usuarios" (Some "u1") ana_sin_nombre)
    una_usuaria =
    Some (<[("usuarios", "u1") := ana_renombrada]> una_usuaria,
          mkRes 200 (mensaje "Usuario actualizado con éxito"))
  ∧ ("usuarios", "u2") ≠
      objetivo entorno1 (mkReq PUT "usuarios" (Some "u1") ana_sin_nombre)
  ∧ (<[("usuarios", "u1") := ana_renombrada]> una_usuaria : Store) !! ("usuarios", "u2")
    = una_usuaria !! ("usuarios", "u2").
Proof.
  assert (("usuarios", "u2") ≠
          objetivo entorno1 (mkReq PUT "usuarios" (Some "u1") ana_sin_nombre)) as Hk
    by discriminate.
  split; [exact ejemplo_actualizar | split; [exact Hk |]].
  exact (huella sinCadenas false entorno1 _ _ _ _ ejemplo_actualizar _ Hk).
Defined.

(** X5.  What each method can do to the set of stored documents.  A read
    changes nothing.  A create never changes or removes an existing
    document, and adds exactly one when it answers 201.  An update neither
    adds nor removes a document.  A delete never adds or changes one, and
    removes exactly one when it answers 200. *)
Theorem efectos_por_metodo (StringToNumber : string → option Q)
    (ignoreUndefinedProperties : bool)
    (env : Entorno) (req : Request) (s s' : Store) (res : Response) :
  app StringToNumber ignoreUndefinedProperties env req s = Some (s', res) →
  (metodo req = GET → s' = s)
  ∧ (metodo req = POST →
       (∀ k d, s !! k = Some d → s' !! k = Some d)
       ∧ (status res = 201 → size s' = S (size s)))
  ∧ (metodo req = PUT → ∀ k, is_Some (s' !! k) ↔ is_Some (s !! k))
  ∧ (metodo req = DELETE →
       (∀ k d, s' !! k = Some d → s !! k = Some d)
       ∧ (status res = 200 → size s = S (size s'))).
Proof.
  intros H. apply app_efecto in H.
  destruct H as [(-> & H201 & H200) | [(Hm & Hst & Hlibre & d & ->)
                | [(Hm & Hst & old & d & Hold & ->) | (Hm & Hst & old & Hold & ->)]]];
    (split; [| split; [| split]]); intros Hm'; try congruence; try done.
  - split; [done |]. intros Hst. apply H200 in Hst. congruence.
  - split.
    + intros k d0 Hk. rewrite lookup_insert_ne; [done |]. intros <-. congruence.
    + intros _. by apply map_size_insert_None.
  - intros k. destruct (decide (objetivo env req = k)) as [<-|Hne].
    + rewrite lookup_insert_eq, Hold. split; by eexists.
    + by rewrite lookup_insert_ne.
  - split.
    + intros k d0 Hk. destruct (decide (objetivo env req = k)) as [<-|Hne].
      * by rewrite lookup_delete_eq in Hk.
      * by rewrite lookup_delete_ne in Hk.
    + intros _. rewrite <- (insert_delete_id s (objetivo env req) old Hold) at 1.
      apply map_size_insert_None, lookup_delete_eq.
Qed.

Lemma efectos_por_metodo_witness :
  app sinCadenas false entorno1 (mkReq DELETE "usuarios" (Some "u1") ∅) una_usuaria =
    Some (delete ("usuarios", "u1") una_usuaria,
          mkRes 200 (mensaje "Usuario eliminado con éxito"))
  ∧ size una_usuaria = S (size (delete ("usuarios", "u1") una_usuaria)).
Proof.
  split; [exact ejemplo_eliminar |].
  destruct (efectos_por_metodo sinCadenas false entorno1 _ _ _ _ ejemplo_eliminar)
    as (_ & _ & _ & Hdel).
  exact (proj2 (Hdel eq_refl) eq_refl).
Defined.

(** ** Stored documents stay well formed *)

Lemma presentes_definidos (campos : list (string * Presencia)) (body : Doc) :
  existsb (λ fp, falta fp.2 (body !! fp.1)) campos = false →
  ∀ f, f ∈ campos.*1 → is_Some (body !! f).
Proof.
  intros Hex f [[f' p] [-> Hin]]%list_elem_of_fmap. simpl.
  apply (presente_defined p).
  destruct (falta p (body !! f')) eqn:Hf; [|done].
  assert (existsb (λ fp, falta fp.2 (body !! fp.1)) campos = true) as Hex'.
  { apply existsb_exists. exists (f', p). split; [by apply list_elem_of_In | done]. }
  congruence.
Qed.

(** The object a create stores is well formed. *)
Lemma objetoNuevo_bien_formado r env body :
  (∀ f, f ∈ (requeridos r).*1 → is_Some (body !! f)) →
  documento_bien_formado r
    (stringify (objetoNuevo ((requeridos r).*1) (conFechaRegistro r) env body)).
Proof.
  intros Hdef. split; [|split].
  - intros f Hf. rewrite objetoNuevo_lookup.
    destruct (conFechaRegistro r && bool_decide (f = "fechaRegistro")); [by eexists |].
    rewrite decide_True by done. by apply Hdef.
  - intros Hfr. rewrite objetoNuevo_lookup, Hfr. by eexists.
  - intros f. rewrite objetoNuevo_lookup.
    destruct (conFechaRegistro r) eqn:Hfr; simpl.
    + case_bool_decide; [by right |]. case_decide; [by left |]. by intros [? ?].
    + case_decide; [by left |]. by intros [? ?].
Qed.

(** A merge of destructured fields into a well-formed document is well
    formed. *)
Lemma fusion_bien_formada r (body old : Doc) :
  documento_bien_formado r old →
  documento_bien_formado r (stringify (shorthand ((requeridos r).*1) body) ∪ old).
Proof.
  intros (Hcampos & Hfr & Hotros). split; [|split].
  - intros f Hf. rewrite merge_lookup, decide_True by done.
    destruct (body !! f); [by eexists | by apply Hcampos].
  - intros Hc. rewrite merge_lookup. case_decide as Hin.
    + destruct (body !! "fechaRegistro"); [by eexists | by apply Hcampos].
    + by apply Hfr.
  - intros f. rewrite merge_lookup. case_decide as Hin; [by left |]. apply Hotros.
Qed.

(** One request keeps the store well formed. *)
Lemma app_bien_formado (StringToNumber : string → option Q)
    (ignoreUndefinedProperties : bool)
    (env : Entorno) (req : Request) (s s' : Store) (res : Response) :
  almacen_bien_formado s →
  app StringToNumber ignoreUndefinedProperties env req s = Some (s', res) →
  almacen_bien_formado s'.
Proof.
  intros Hwf H. apply app_casos in H.
  destruct H as [(_ & _ & _ & H)
                | (Hr & [(_ & _ & H) | (id & Hid & [(_ & H) | [(_ & H) | (_ & H)]])])].
  - unfold raiz in H. by injection H as <- _.
  - destruct (crear_casos StringToNumber ignoreUndefinedProperties (recurso req)
                (requeridos (recurso req)) (conRango (recurso req))
                (conFechaRegistro (recurso req)) (mensajeFaltan (recurso req)) env req s)
      as [(res0 & Heq & _) | (Hpres & _ & _ & Heq)];
      rewrite Heq in H; injection H as <- _; [done |].
    intros r0 id0 d0 Hd0.
    destruct (decide ((recurso req, autoId env) = (r0, id0))) as [Heq0|Hne].
    + injection Heq0 as <- <-. rewrite lookup_insert_eq in Hd0. injection Hd0 as <-.
      split; [done |]. apply objetoNuevo_bien_formado. by apply presentes_definidos.
    + rewrite lookup_insert_ne in Hd0 by done. exact (Hwf _ _ _ Hd0).
  - pose proof (obtener_almacen (recurso req) (noEncontrado (recurso req)) req s) as Hs.
    rewrite H in Hs. simpl in Hs. by subst s'.
  - rewrite (actualizar_forma _ _ _ _ _ _ _ _ _ id Hid) in H.
    destruct (s !! (recurso req, id)) as [old|] eqn:Hold; [| by injection H as <- _].
    destruct (conRango (recurso req) && _); [by injection H as <- _ |].
    destruct (ignoreUndefinedProperties || _); injection H as <- _; [| done].
    intros r0 id0 d0 Hd0.
    destruct (decide ((recurso req, id) = (r0, id0))) as [Heq0|Hne].
    + injection Heq0 as <- <-. rewrite lookup_insert_eq in Hd0. injection Hd0 as <-.
      split; [done |]. apply fusion_bien_formada. by apply (Hwf _ _ _ Hold).
    + rewrite lookup_insert_ne in Hd0 by done. exact (Hwf _ _ _ Hd0).
  - rewrite (eliminar_forma _ _ _ _ _ id Hid) in H.
    destruct (s !! (recurso req, id)) as [old|] eqn:Hold; injection H as <- _; [| done].
    intros r0 id0 d0 Hd0.
    destruct (decide ((recurso req, id) = (r0, id0))) as [Heq0|Hne].
    + rewrite <- Heq0, lookup_delete_eq in Hd0. done.
    + rewrite lookup_delete_ne in Hd0 by done. exact (Hwf _ _ _ Hd0).
Qed.

(** A run keeps the store well formed. *)
Lemma correr_conserva (StringToNumber : string → option Q)
    (ignoreUndefinedProperties : bool) (ps : list (Entorno * Request)) (s : Store) :
  almacen_bien_formado s →
  almacen_bien_formado (correr StringToNumber ignoreUndefinedProperties ps s).
Proof.
  revert s. induction ps as [|[env req] ps IH]; intros s Hwf; [done |].
  unfold correr. simpl. apply IH.
  destruct (app _ _ env req s) as [[s' res]|] eqn:Happ; [| done].
  by eapply app_bien_formado.
Qed.

Lemma vacio_bien_formado : almacen_bien_formado ∅.
Proof. intros r id d H. by rewrite lookup_empty in H. Qed.

(** A well-formed document has no field [id]. *)
Lemma bien_formado_sin_id r d :
  r ∈ recursos → documento_bien_formado r d → d !! "id" = None.
Proof.
  intros Hr (_ & _ & Hotros). destruct (d !! "id") eqn:Hid; [|done].
  destruct (requeridos_sin_id r Hr) as [Hnid _].
  destruct (Hotros "id") as [? | [_ ?]]; [by eexists | done | done].
Qed.

Lemma ejemplo_correr :
  correr sinCadenas false [(entorno1, mkReq POST "usuarios" None ana_con_telefono)] ∅
  = <[("usuarios", "Xk29dLq0") := ana_guardada]> ∅.
Proof. unfold correr. cbn [foldl fst snd]. by rewrite ejemplo_crear. Qed.

(** X6.  However many requests are served, in whatever order and with
    whatever payloads, a store that starts well formed stays well formed:
    every document sits in the collection of one of the ten resources, has
    every field the handlers of that resource destructure (with some value,
    possibly an empty one), has [fechaRegistro] if it is a user, and has no
    other field.  The empty store is well formed. *)
Theorem almacen_siempre_bien_formado (StringToNumber : string → option Q)
    (ignoreUndefinedProperties : bool) (ps : list (Entorno * Request)) (s : Store) :
  almacen_bien_formado s →
  almacen_bien_formado (correr StringToNumber ignoreUndefinedProperties ps s).
Proof. apply correr_conserva. Qed.

Lemma almacen_siempre_bien_formado_witness :
  almacen_bien_formado ∅
  ∧ almacen_bien_formado
      (correr sinCadenas false
         [(entorno1, mkReq POST "usuarios" None ana_con_telefono)] ∅).
Proof.
  split; [exact vacio_bien_formado |].
  exact (almacen_siempre_bien_formado sinCadenas false _ ∅ vacio_bien_formado).
Defined.

(** X7.  After any run from the empty store, a read of a document that is
    there answers 200 with the identifier that was asked for under [id]
    and with the stored fields beside it, every required field of the
    resource among them; no stored field shadows the identifier. *)
Theorem obtener_tras_correr (StringToNumber : string → option Q)
    (ignoreUndefinedProperties : bool) (ps : list (Entorno * Request))
    (env : Entorno) (r id : string) (b d : Doc) :
  correr StringToNumber ignoreUndefinedProperties ps ∅ !! (r, id) = Some d →
  app StringToNumber ignoreUndefinedProperties env (mkReq GET r (Some id) b)
    (correr StringToNumber ignoreUndefinedProperties ps ∅) =
    Some (correr StringToNumber ignoreUndefinedProperties ps ∅,
          mkRes 200 (json_ (<["id" := JStr id]> d)))
  ∧ d !! "id" = None
  ∧ (∀ f, f ∈ (requeridos r).*1 → is_Some (d !! f)).
Proof.
  intros Hd.
  destruct (correr_conserva StringToNumber ignoreUndefinedProperties ps ∅
              vacio_bien_formado r id d Hd) as [Hr Hwf].
  pose proof (bien_formado_sin_id r d Hr Hwf) as Hid.
  split; [by apply obtener_recurso | split; [done |]]. apply Hwf.
Qed.

Lemma obtener_tras_correr_witness :
  correr sinCadenas false [(entorno1, mkReq POST "usuarios" None ana_con_telefono)] ∅
    !! ("usuarios", "Xk29dLq0") = Some ana_guardada
  ∧ app sinCadenas false entorno1 (mkReq GET "usuarios" (Some "Xk29dLq0") ∅)
      (correr sinCadenas false
         [(entorno1, mkReq POST "usuarios" None ana_con_telefono)] ∅) =
    Some (correr sinCadenas false
            [(entorno1, mkReq POST "usuarios" None ana_con_telefono)] ∅,
          mkRes 200 (json_ (<["id" := JStr "Xk29dLq0"]> ana_guardada))).
Proof.
  assert (correr sinCadenas false
            [(entorno1, mkReq POST "usuarios" None ana_con_telefono)] ∅
            !! ("usuarios", "Xk29dLq0") = Some ana_guardada) as Hd.
  { rewrite ejemplo_correr. apply lookup_insert_eq. }
  split; [exact Hd |].
  exact (proj1 (obtener_tras_correr sinCadenas false _ entorno1 _ _ ∅ _ Hd)).
Defined.

(** ** How the operations compose *)



(** X9.  Update is idempotent: an update answered 200, sent again on the
    store it produced, is answered the same and leaves that store as it
    is. *)
Theorem actualizar_idempotente (StringToNumber : string → option Q)
    (ignoreUndefinedProperties : bool)
    (r : string) (env env' : Entorno) (id : string) (body : Doc)
    (s s1 : Store) (res1 : Response) :
  r ∈ recursos →
  app StringToNumber ignoreUndefinedProperties env (mkReq PUT r (Some id) body) s =
    Some (s1, res1) →
  status res1 = 200 →
  app StringToNumber ignoreUndefinedProperties env' (mkReq PUT r (Some id) body) s1 =
    Some (s1, res1).
Proof.
  intros Hr H Hst. rewrite app_PUT in H |- * by done.
  rewrite (actualizar_forma _ _ _ _ _ _ _ (mkReq PUT r (Some id) body) s id eq_refl) in H.
  rewrite (actualizar_forma _ _ _ _ _ _ _ (mkReq PUT r (Some id) body) s1 id eq_refl).
  simpl in *.
  destruct (s !! (r, id)) as [old|] eqn:Hold;
    [| injection H as <- <-; discriminate Hst].
  destruct (conRango r && _) eqn:Hrango; [injection H as <- <-; discriminate Hst |].
  destruct (ignoreUndefinedProperties || _) eqn:Hdef;
    [| injection H as <- <-; discriminate Hst].
  injection H as <- <-. rewrite lookup_insert_eq. f_equal. f_equal.
  rewrite insert_insert_eq. f_equal.
  by rewrite (assoc_L (∪)), (idemp_L (∪)).
Qed.

Lemma actualizar_idempotente_witness :
  "usuarios" ∈ recursos
  ∧ app sinCadenas false entorno1 (mkReq PUT "usuarios" (Some "u1") ana_sin_nombre)
      una_usuaria =
    Some (<[("usuarios", "u1") := ana_renombrada]> una_usuaria,
          mkRes 200 (mensaje "Usuario actualizado con éxito"))
  ∧ app sinCadenas false entorno1 (mkReq PUT "usuarios" (Some "u1") ana_sin_nombre)
      (<[("usuarios", "u1") := ana_renombrada]> una_usuaria) =
    Some (<[("usuarios", "u1") := ana_renombrada]> una_usuaria,
          mkRes 200 (mensaje "Usuario actualizado con éxito")).
Proof.
  assert ("usuarios" ∈ recursos) as Hr by (by left).
  split; [exact Hr | split; [exact ejemplo_actualizar |]].
  exact (actualizar_idempotente sinCadenas false "usuarios" entorno1 entorno1 "u1"
           ana_sin_nombre _ _ _ Hr ejemplo_actualizar eq_refl).
Defined.





(** ** What the validations let through *)



Lemma resena_con_campos (v : json) :
  resena_con v !! "calificacion" = Some v
  ∧ truthy (resena_con v !! "usuarioId") = true
  ∧ truthy (resena_con v !! "productoId") = true
  ∧ is_Some (resena_con v !! "comentario")
  ∧ is_Some (resena_con v !! "usuarioId")
  ∧ is_Some (resena_con v !! "productoId").
Proof. repeat split; try reflexivity; by eexists. Qed.


(** X12.  The range test of the review update on ratings that are not
    numbers.  [null], [false] and the empty array read as 0 and are refused
    with 400 and the range message, nothing written.  An absent rating
    reads as [NaN] and passes the range test: the update is never answered
    400 for it; the write is carried out without the rating (200, the
    stored rating kept) when the store client ignores undefined properties,
    and is refused by the client (500, nothing written) otherwise. *)
Theorem actualizar_calificacion_no_numerica (StringToNumber : string → option Q)
    (ignoreUndefinedProperties : bool)
    (env : Entorno) (id : string) (cuerpo : Doc) (s : Store) (old : Doc) :
  s !! ("resenas", id) = Some old →
  (cuerpo !! "calificacion" = Some JNull ∨ cuerpo !! "calificacion" = Some (JBool false)
   ∨ cuerpo !! "calificacion" = Some (JArr []) →
   app StringToNumber ignoreUndefinedProperties env
     (mkReq PUT "resenas" (Some id) cuerpo) s =
   Some (s, mkRes 400 (mensaje "La calificación debe estar entre 1 y 5.")))
  ∧ (cuerpo !! "calificacion" = None →
     ∃ (s' : Store) (res : Response),
       app StringToNumber ignoreUndefinedProperties env
         (mkReq PUT "resenas" (Some id) cuerpo) s = Some (s', res)
       ∧ status res ≠ 400
       ∧ (ignoreUndefinedProperties = false → s' = s ∧ res = errorInterno)
       ∧ (ignoreUndefinedProperties = true →
          res = mkRes 200 (mensaje "Reseña actualizada con éxito")
          ∧ ∃ nuevo, s' !! ("resenas", id) = Some nuevo
                     ∧ nuevo !! "calificacion" = old !! "calificacion")).
Proof.
  intros Hold.
  assert ("resenas" ∈ recursos) as Hr by en_lista.
  split.
  - intros Hv. rewrite app_PUT by done. f_equal.
    apply (actualizar_400 StringToNumber ignoreUndefinedProperties "resenas"
             _ _ _ (mkReq PUT "resenas" (Some id) cuerpo) s id old eq_refl Hold).
    simpl. by destruct Hv as [-> | [-> | ->]].
  - intros Hv. rewrite app_PUT by done.
    rewrite (actualizar_forma _ _ _ _ _ _ _ (mkReq PUT "resenas" (Some id) cuerpo) s id
               eq_refl).
    rewrite Hold. cbn [body]. rewrite Hv.
    change (conRango "resenas" && fueraDeRango StringToNumber None) with false.
    assert (forallb (λ f, negb (isUndefined (cuerpo !! f))) (requeridos "resenas").*1 = false)
      as ->.
    { change ((requeridos "resenas").*1) with
        ["usuarioId"; "productoId"; "calificacion"; "comentario"].
      cbn [forallb]. rewrite Hv. cbn [isUndefined negb]. by rewrite !andb_false_r. }
    cbv iota. rewrite orb_false_r.
    destruct ignoreUndefinedProperties; eexists _, _; (split; [reflexivity |]);
      (split; [by cbn [status] |]); split; try discriminate.
    + intros _. split; [reflexivity |].
      eexists. split; [apply lookup_insert_eq |].
      rewrite merge_lookup, decide_True by en_lista. by rewrite Hv.
    + intros _. by split.
Qed.

Lemma actualizar_calificacion_no_numerica_witness :
  una_resena !! ("resenas", "r1") = Some (resena 3)
  ∧ resena_con JNull !! "calificacion" = Some JNull
  ∧ app sinCadenas false entorno1
      (mkReq PUT "resenas" (Some "r1") (resena_con JNull)) una_resena =
    Some (una_resena, mkRes 400 (mensaje "La calificación debe estar entre 1 y 5.")).
Proof.
  destruct una_resena_lookup as [Hhay _].
  destruct (resena_con_campos JNull) as (Hv & _).
  split; [exact Hhay | split; [exact Hv |]].
  exact (proj1 (actualizar_calificacion_no_numerica sinCadenas false entorno1 "r1"
                  (resena_con JNull) una_resena (resena 3) Hhay) (or_introl Hv)).
Defined.

(** X13.  Among the update routes only the one of reviews ever answers 400:
    an update answered 400 is an update of an existing review whose rating
    is out of range, it carries the range message, and it writes nothing.
    On every other resource an update validates nothing. *)
Theorem actualizar_400_solo_resenas (StringToNumber : string → option Q)
    (ignoreUndefinedProperties : bool)
    (env : Entorno) (req : Request) (s s' : Store) (res : Response) :
  metodo req = PUT →
  app StringToNumber ignoreUndefinedProperties env req s = Some (s', res) →
  status res = 400 →
  recurso req = "resenas"
  ∧ res = mkRes 400 (mensaje "La calificación debe estar entre 1 y 5.")
  ∧ s' = s
  ∧ fueraDeRango StringToNumber (body req !! "calificacion") = true
  ∧ is_Some (s !! objetivo env req).
Proof.
  intros Hput H Hst. apply app_casos in H.
  destruct H as [(Hm & _) | (Hr & [(Hm & _) | (id & Hid & [(Hm & _) | [(_ & H) | (Hm & _)]])])];
    try congruence.
  rewrite (actualizar_forma _ _ _ _ _ _ _ req s id Hid) in H.
  unfold objetivo. rewrite Hput, Hid. simpl.
  destruct (s !! (recurso req, id)) as [old|] eqn:Hold;
    [| injection H as <- <-; discriminate Hst].
  rewrite (conRango_resenas _ Hr) in H.
  destruct (bool_decide (recurso req = "resenas")) eqn:Hres; simpl in H.
  - apply bool_decide_eq_true in Hres.
    destruct (fueraDeRango StringToNumber (body req !! "calificacion")) eqn:Hfuera.
    + injection H as <- <-. repeat split; first [done | by eexists].
    + destruct (ignoreUndefinedProperties || _); injection H as <- <-; discriminate Hst.
  - destruct (ignoreUndefinedProperties || _); injection H as <- <-; discriminate Hst.
Qed.

Lemma ejemplo_actualizar_400 :
  app sinCadenas false entorno1 (mkReq PUT "resenas" (Some "r1") (resena 6)) una_resena =
    Some (una_resena, mkRes 400 (mensaje "La calificación debe estar entre 1 y 5.")).
Proof.
  rewrite app_PUT by en_lista. apply (f_equal Some).
  apply (actualizar_400 sinCadenas false "resenas" _ _ _
           (mkReq PUT "resenas" (Some "r1") (resena 6)) una_resena "r1" (resena 3)
           eq_refl).
  - apply lookup_singleton_eq.
  - reflexivity.
Qed.

Lemma actualizar_400_solo_resenas_witness :
  app sinCadenas false entorno1 (mkReq PUT "resenas" (Some "r1") (resena 6)) una_resena =
    Some (una_resena, mkRes 400 (mensaje "La calificación debe estar entre 1 y 5."))
  ∧ fueraDeRango sinCadenas (resena 6 !! "calificacion") = true.
Proof.
  split; [exact ejemplo_actualizar_400 |].
  exact (proj1 (proj2 (proj2 (proj2
    (actualizar_400_solo_resenas sinCadenas false entorno1
       (mkReq PUT "resenas" (Some "r1") (resena 6)) una_resena una_resena _
       eq_refl ejemplo_actualizar_400 eq_refl))))).
Defined.

(** X14.  When a create answers 400, and with which message.  It answers
    400 exactly when a destructured field fails its presence test or, on
    reviews, the rating is out of range; the store is then unchanged.  The
    presence test comes first: a review that both lacks a field and has a
    rating out of range gets the missing-fields message, and the range
    message is sent only when all four fields are present. *)
Theorem crear_400_exacto (StringToNumber : string → option Q)
    (ignoreUndefinedProperties : bool)
    (r : string) (env : Entorno) (body : Doc) (s : Store) :
  r ∈ recursos →
  ∃ (s' : Store) (res : Response),
    app StringToNumber ignoreUndefinedProperties env (mkReq POST r None body) s =
      Some (s', res)
    ∧ (existsb (λ fp, falta fp.2 (body !! fp.1)) (requeridos r) = true →
       s' = s ∧ res = mkRes 400 (mensaje (mensajeFaltan r)))
    ∧ (existsb (λ fp, falta fp.2 (body !! fp.1)) (requeridos r) = false →
       r = "resenas" →
       fueraDeRango StringToNumber (body !! "calificacion") = true →
       s' = s ∧ res = mkRes 400 (mensaje "La calificación debe estar entre 1 y 5."))
    ∧ (existsb (λ fp, falta fp.2 (body !! fp.1)) (requeridos r) = false →
       (r = "resenas" → fueraDeRango StringToNumber (body !! "calificacion") = false) →
       status res ≠ 400).
Proof.
  intros Hr. rewrite app_POST by done.
  unfold crear. simpl. rewrite (conRango_resenas r Hr).
  destruct (existsb _ (requeridos r)) eqn:Hex.
  { eexists _, _. split; [done |]. repeat split; done. }
  destruct (bool_decide (r = "resenas")) eqn:Hres; simpl.
  - apply bool_decide_eq_true in Hres.
    destruct (fueraDeRango StringToNumber (body !! "calificacion")) eqn:Hfuera.
    + eexists _, _. split; [done |]. repeat split; try done.
      intros _ Hno. by specialize (Hno Hres).
    + destruct (Firestore.add _ _ _ _ _) as [[s1 i]|];
        eexists _, _; (split; [done |]); repeat split; done.
  - apply bool_decide_eq_false in Hres.
    destruct (Firestore.add _ _ _ _ _) as [[s1 i]|];
      eexists _, _; (split; [done |]); repeat split; done.
Qed.

Lemma crear_400_exacto_witness :
  "resenas" ∈ recursos
  ∧ existsb (λ fp, falta fp.2 (resena_6_sin_comentario !! fp.1)) (requeridos "resenas")
    = true
  ∧ fueraDeRango sinCadenas (resena_6_sin_comentario !! "calificacion") = true
  ∧ app sinCadenas false entorno1 (mkReq POST "resenas" None resena_6_sin_comentario) ∅ =
    Some (∅, mkRes 400 (mensaje
      "Faltan datos obligatorios: usuarioId, productoId, calificacion, comentario.")).
Proof.
  assert ("resenas" ∈ recursos) as Hr by en_lista.
  assert (existsb (λ fp, falta fp.2 (resena_6_sin_comentario !! fp.1))
            (requeridos "resenas") = true) as Hex by reflexivity.
  assert (fueraDeRango sinCadenas (resena_6_sin_comentario !! "calificacion") = true)
    as Hfuera by reflexivity.
  split; [exact Hr | split; [exact Hex | split; [exact Hfuera |]]].
  destruct (crear_400_exacto sinCadenas false "resenas" entorno1
              resena_6_sin_comentario ∅ Hr) as (s' & res & Happ & Hfalta & _).
  destruct (Hfalta Hex) as [-> ->]. exact Happ.
Defined.

(** ** Identifiers and not-found answers *)

(** X15.  The read handlers build their answer as
    [{ id: doc.id, ...doc.data() }], so a stored field named [id] replaces
    the document identifier in the answer: the body is the stored document
    as it is.  No update removes or changes that field, since no update
    handler destructures [id]. *)
Theorem id_guardado_tapa (StringToNumber : string → option Q)
    (ignoreUndefinedProperties : bool)
    (r : string) (env : Entorno) (id : string) (v : json) (d b : Doc) (s : Store) :
  r ∈ recursos →
  s !! (r, id) = Some d →
  d !! "id" = Some v →
  app StringToNumber ignoreUndefinedProperties env (mkReq GET r (Some id) b) s =
    Some (s, mkRes 200 (json_ d))
  ∧ ∀ s' res,
      app StringToNumber ignoreUndefinedProperties env (mkReq PUT r (Some id) b) s =
        Some (s', res) →
      ∃ d', s' !! (r, id) = Some d' ∧ d' !! "id" = Some v.
Proof.
  intros Hr Hold Hv. split.
  - rewrite app_GET by done. apply (f_equal Some).
    rewrite (obtener_200 r _ (mkReq GET r (Some id) b) s id d eq_refl Hold).
    do 3 f_equal. apply map_eq. intros f. rewrite lookup_union.
    destruct (decide (f = "id")) as [-> | Hf].
    + by rewrite Hv, lookup_singleton_eq.
    + rewrite lookup_singleton_ne by done. by destruct (d !! f).
  - intros s' res H. rewrite app_PUT in H by done.
    rewrite (actualizar_forma _ _ _ _ _ _ _ (mkReq PUT r (Some id) b) s id eq_refl) in H.
    rewrite Hold in H.
    destruct (conRango r && _); [injection H as <- <-; by exists d |].
    destruct (ignoreUndefinedProperties || _); [| injection H as <- <-; by exists d].
    injection H as <- <-. eexists. split; [apply lookup_insert_eq |].
    rewrite merge_lookup, decide_False; [done |].
    apply (requeridos_sin_id r Hr).
Qed.

Lemma id_guardado_tapa_witness :
  "usuarios" ∈ recursos
  ∧ usuaria_con_id !! ("usuarios", "u1") = Some (<["id" := JStr "otro"]> ana_guardada)
  ∧ (<["id" := JStr "otro"]> ana_guardada : Doc) !! "id" = Some (JStr "otro")
  ∧ app sinCadenas false entorno1 (mkReq GET "usuarios" (Some "u1") ∅) usuaria_con_id =
    Some (usuaria_con_id, mkRes 200 (json_ (<["id" := JStr "otro"]> ana_guardada))).
Proof.
  assert ("usuarios" ∈ recursos) as Hr by en_lista.
  assert (usuaria_con_id !! ("usuarios", "u1") =
          Some (<["id" := JStr "otro"]> ana_guardada)) as Hold
    by apply lookup_singleton_eq.
  assert ((<["id" := JStr "otro"]> ana_guardada : Doc) !! "id" = Some (JStr "otro"))
    as Hv by apply lookup_insert_eq.
  split; [exact Hr | split; [exact Hold | split; [exact Hv |]]].
  exact (proj1 (id_guardado_tapa sinCadenas false "usuarios" entorno1 "u1" (JStr "otro")
                  _ ∅ usuaria_con_id Hr Hold Hv)).
Defined.

Lemma recurso_no_vacio : "" ∉ recursos.
Proof. en_lista. Qed.

(** X16.  What a 404 means.  A served request is answered 404 exactly when
    it is a read, an update or a delete of a document that is not in the
    store; a create never answers 404, and neither does the root.  Every
    answer carries one of the five statuses 200, 201, 400, 404 and 500. *)
Theorem no_encontrado_exacto (StringToNumber : string → option Q)
    (ignoreUndefinedProperties : bool)
    (env : Entorno) (req : Request) (s s' : Store) (res : Response) :
  app StringToNumber ignoreUndefinedProperties env req s = Some (s', res) →
  (status res = 404 ↔
     metodo req ≠ POST ∧ recurso req ∈ recursos ∧ s !! objetivo env req = None)
  ∧ status res ∈ [200; 201; 400; 404; 500].
Proof.
  intros H. apply app_casos in H.
  destruct H as [(Hm & Hrec & _ & H)
                | (Hr & [(Hm & _ & H) | (id & Hid & [(Hm & H) | [(Hm & H) | (Hm & H)]])])];
    unfold objetivo; rewrite Hm; rewrite ?Hid; simpl.
  - unfold raiz in H. injection H as <- <-. split; [| en_lista].
    split; [done |]. intros (_ & Hr & _). rewrite Hrec in Hr.
    by destruct recurso_no_vacio.
  - destruct (crear_casos StringToNumber ignoreUndefinedProperties (recurso req)
                (requeridos (recurso req)) (conRango (recurso req))
                (conFechaRegistro (recurso req)) (mensajeFaltan (recurso req)) env req s)
      as [(res0 & Heq & Hst) | (_ & _ & _ & Heq)];
      rewrite Heq in H; injection H as <- <-.
    + split; [split; [destruct Hst as [-> | ->]; done | by intros (? & _)] |].
      destruct Hst as [-> | ->]; en_lista.
    + split; [split; [done | by intros (? & _)] | en_lista].
  - unfold obtener, Firestore.get in H. rewrite Hid in H.
    destruct (s !! (recurso req, id)); injection H as <- <-.
    + split; [split; [done | by intros (_ & _ & ?)] | en_lista].
    + split; [done | en_lista].
  - rewrite (actualizar_forma _ _ _ _ _ _ _ req s id Hid) in H.
    destruct (s !! (recurso req, id)).
    + destruct (conRango (recurso req) && _);
        [| destruct (ignoreUndefinedProperties || _)]; injection H as <- <-;
        (split; [split; [done | by intros (_ & _ & ?)] | en_lista]).
    + injection H as <- <-. split; [done | en_lista].
  - rewrite (eliminar_forma _ _ _ req s id Hid) in H.
    destruct (s !! (recurso req, id)); injection H as <- <-.
    + split; [split; [done | by intros (_ & _ & ?)] | en_lista].
    + split; [done | en_lista].
Qed.

Lemma ejemplo_obtener_404 :
  app sinCadenas false entorno1 (mkReq GET "usuarios" (Some "u2") ∅) una_usuaria =
    Some (una_usuaria, mkRes 404 (mensaje "Usuario no encontrado.")).
Proof.
  rewrite app_GET by en_lista. apply (f_equal Some).
  apply (obtener_404 "usuarios" _ (mkReq GET "usuarios" (Some "u2") ∅) una_usuaria "u2"
           eq_refl).
  by apply lookup_singleton_ne.
Qed.

Lemma no_encontrado_exacto_witness :
  app sinCadenas false entorno1 (mkReq GET "usuarios" (Some "u2") ∅) una_usuaria =
    Some (una_usuaria, mkRes 404 (mensaje "Usuario no encontrado."))
  ∧ una_usuaria !! objetivo entorno1 (mkReq GET "usuarios" (Some "u2") ∅) = None.
Proof.
  split; [exact ejemplo_obtener_404 |].
  exact (proj2 (proj2 (proj1 (proj1
    (no_encontrado_exacto sinCadenas false entorno1
       (mkReq GET "usuarios" (Some "u2") ∅) una_usuaria una_usuaria _
       ejemplo_obtener_404)) eq_refl))).
Defined.
